(** * A product CRUD service: persistence gateway and HTTP router

    Shallow embedding of [src/backend/db.js] (class [DB], the persistence
    gateway over one MongoDB collection), of [src/backend/index.js] (the
    Express router with its validation rules) and of the second route
    definition file [src/unnamed/part_000], which differs from [index.js]
    in its validation rules.

    The code threads three kinds of state: the JavaScript objects it
    mutates in place (the request body is handed to the gateway and
    receives its [_id] there), the collection held by the store, and the
    request-local list of validation contexts.  Objects live in a heap
    indexed by references, the collection is a list of stored documents,
    and every gateway operation is a state transformer over both.

    Third-party code is taken as given: the [bson] identifier type is an
    interface ([Bson]), the string predicates of [validator.js] are an
    interface ([ValidatorJs]), and the MongoDB driver is a reference model
    of one collection whose failures are chosen by the environment. *)

From Stdlib Require Import Ascii QArith Qcanon.
From stdpp Require Import base numbers strings list functions gmap.

Set Default Proof Using "Type".

(** ** JavaScript data *)

(** Values produced by [express.json()]: numbers are the exact rational
    a finite double denotes. *)
#[warnings="-register-all"]
Inductive json :=
| JNull
| JBool (b : bool)
| JNum (q : Qc)
| JStr (s : string)
| JArr (l : list json)
| JObj (l : list (string * json)).

#[global] Instance json_eq_dec : EqDecision json.
Proof.
  refine (fix go (x y : json) {struct x} : Decision (x = y) :=
    match x, y with
    | JNull, JNull => left _
    | JBool a, JBool b => cast_if (decide (a = b))
    | JNum a, JNum b => cast_if (decide (a = b))
    | JStr a, JStr b => cast_if (decide (a = b))
    | JArr a, JArr b => cast_if (@list_eq_dec _ go a b)
    | JObj a, JObj b => cast_if (@list_eq_dec _ (@prod_eq_dec _ _ _ go) a b)
    | _, _ => right _
    end); clear go; abstract congruence.
Defined.

(** Errors a promise rejects with or a call throws.  [BSONError] is what
    [new ObjectId(id)] throws, [MongoError] what the driver rejects with,
    [JsError msg] is [new Error(msg)] of the gateway itself. *)
Inductive Error :=
| BSONError
| MongoError (msg : string)
| JsError (msg : string).

#[global] Instance Error_eq_dec : EqDecision Error.
Proof. solve_decision. Defined.

(** A settled promise. *)
Inductive promise (A : Type) :=
| Resolved (a : A)
| Rejected (err : Error).
Arguments Resolved {A} a.
Arguments Rejected {A} err.

(** The completion of a synchronous piece of code: it returns or throws. *)
Inductive completion (A : Type) :=
| Normal (a : A)
| Throw (err : Error).
Arguments Normal {A} a.
Arguments Throw {A} err.

(** ** The identifier type of the store *)

(** [ObjectId_new s] is [new ObjectId(s)] on a string: [None] when the
    constructor throws.  [toHexString] is the text an identifier is sent
    as in a response; the constructor reads it back. *)
Class Bson := {
  ObjectId : Type;
  ObjectId_eq_dec :: EqDecision ObjectId;
  ObjectId_new : string → option ObjectId;
  toHexString : ObjectId → string;
  ObjectId_new_toHexString : ∀ o, ObjectId_new (toHexString o) = Some o
}.

(** References to JavaScript objects. *)
Definition loc := nat.

Section Store.
Context `{Bson}.

(** A field of a document: a JSON value, or a store identifier. *)
Inductive value :=
| VJson (j : json)
| VObjectId (o : ObjectId).

#[global] Instance value_eq_dec : EqDecision value.
Proof. solve_decision. Defined.

(** The heap of objects the program holds references to, and the
    documents of the collection [products]. *)
Record world := World {
  heap : loc → gmap string value;
  collection : list (gmap string value)
}.

(** What a gateway promise resolves to and a route tests for truth:
    [null], a reference to an object of the heap, or a document the driver
    has just read from the store (an object nothing else refers to). *)
Inductive jsval :=
| JsNull
| JsRef (l : loc)
| JsDoc (d : gmap string value).

Definition truthy (v : jsval) : bool :=
  match v with
  | JsNull => false
  | JsRef _ | JsDoc _ => true
  end.

(** What the store does during one driver call: [fault] makes the call
    reject, [ack] is the [acknowledged] flag of a write, [ok] the [ok] flag
    of a find-and-modify, [createPk] the identifier the driver generates
    for a document without one. *)
Record env := Env {
  fault : option Error;
  ack : bool;
  ok : bool;
  createPk : ObjectId
}.

(** State transformers over the world. *)
Definition M (A : Type) : Type := world → A * world.

#[global] Instance M_ret : MRet M := λ A a w, (a, w).
#[global] Instance M_bind : MBind M := λ A B f m w, let '(a, w') := m w in f a w'.

Definition get_object (l : loc) : M (gmap string value) := λ w, (heap w l, w).

Definition set_field (l : loc) (k : string) (v : value) : M unit :=
  λ w, (tt, World (<[l := <[k := v]> (heap w l)]> (heap w)) (collection w)).

(** [p.then(onFulfilled)]: the callback runs on the resolved value, and a
    throw inside it rejects the resulting promise. *)
Definition then_ {A B} (p : M (promise A)) (onFulfilled : A → M (completion B)) : M (promise B) :=
  r ← p;
  match r with
  | Resolved a =>
      c ← onFulfilled a;
      mret (match c with Normal b => Resolved b | Throw err => Rejected err end)
  | Rejected err => mret (Rejected err)
  end.

(** [p.catch(onRejected)]. *)
Definition catch_ {A} (p : M (promise A)) (onRejected : Error → M (completion A)) : M (promise A) :=
  r ← p;
  match r with
  | Resolved a => mret (Resolved a)
  | Rejected err =>
      c ← onRejected err;
      mret (match c with Normal b => Resolved b | Throw err' => Rejected err' end)
  end.

(** ** Reference model of the driver's collection *)

Definition has_id (_id : value) (d : gmap string value) : bool :=
  bool_decide (d !! "_id" = Some _id).

Fixpoint remove_first (p : gmap string value → bool) (l : list (gmap string value)) :=
  match l with
  | [] => []
  | d :: l' => if p d then l' else d :: remove_first p l'
  end.

Fixpoint replace_first (p : gmap string value → bool) (d' : gmap string value)
    (l : list (gmap string value)) :=
  match l with
  | [] => []
  | d :: l' => if p d then d' :: l' else d :: replace_first p d' l'
  end.

Record InsertOneResult := { acknowledged : bool; insertedId : value }.
Record UpdateResult := { matchedCount : nat; modifiedCount : nat }.
Record ModifyResult := { result_ok : bool; result_value : jsval }.

(** [collection.find().toArray()] *)
Definition find_toArray (e : env) : M (promise (list (gmap string value))) :=
  λ w, match fault e with
       | Some err => (Rejected err, w)
       | None => (Resolved (collection w), w)
       end.

(** [collection.findOne({ _id })] *)
Definition findOne (_id : ObjectId) (e : env) : M (promise jsval) :=
  λ w, match fault e with
       | Some err => (Rejected err, w)
       | None =>
           (Resolved (match List.find (has_id (VObjectId _id)) (collection w) with
                      | Some d => JsDoc d
                      | None => JsNull
                      end), w)
       end.

(** [collection.insertOne(doc)]: the driver gives [doc] an [_id] when it
    has none (mutating [doc]), the store refuses a second document with an
    [_id] it already holds, and the result carries the [_id] stored. *)
Definition insertOne (doc : loc) (e : env) : M (promise InsertOneResult) :=
  λ w,
    let d := heap w doc in
    let d' := match d !! "_id" with
              | None | Some (VJson JNull) => <["_id" := VObjectId (createPk e)]> d
              | Some _ => d
              end in
    let _id := default (VObjectId (createPk e)) (d' !! "_id") in
    let w1 := World (<[doc := d']> (heap w)) (collection w) in
    match fault e with
    | Some err => (Rejected err, w1)
    | None =>
        if existsb (has_id _id) (collection w)
        then (Rejected (MongoError "E11000 duplicate key error collection"), w1)
        else (Resolved {| acknowledged := ack e; insertedId := _id |},
              World (heap w1) (collection w ++ [d']))
    end.

(** [collection.replaceOne({ _id }, doc)]: the first document with this
    [_id] is overwritten by [doc]; the store keeps the [_id] and refuses a
    replacement that carries another one. *)
Definition replaceOne (_id : ObjectId) (doc : loc) (e : env) : M (promise UpdateResult) :=
  λ w,
    let d := heap w doc in
    match fault e with
    | Some err => (Rejected err, w)
    | None =>
        match List.find (has_id (VObjectId _id)) (collection w) with
        | None => (Resolved {| matchedCount := 0; modifiedCount := 0 |}, w)
        | Some old =>
            match d !! "_id" with
            | Some v =>
                if decide (v = VObjectId _id)
                then (Resolved {| matchedCount := 1;
                                  modifiedCount := if decide (old = d) then 0 else 1 |},
                      World (heap w) (replace_first (has_id (VObjectId _id)) d (collection w)))
                else (Rejected (MongoError "the (immutable) field '_id' was found to have been altered"), w)
            | None =>
                let d' := <["_id" := VObjectId _id]> d in
                (Resolved {| matchedCount := 1;
                             modifiedCount := if decide (old = d') then 0 else 1 |},
                 World (heap w) (replace_first (has_id (VObjectId _id)) d' (collection w)))
            end
        end
    end.

(** [collection.findOneAndDelete({ _id })], resolving to the driver's
    [{ ok, value }] result; [ok] is unset when the store reports that the
    command failed, and nothing is removed then. *)
Definition findOneAndDelete (_id : ObjectId) (e : env) : M (promise ModifyResult) :=
  λ w, match fault e with
       | Some err => (Rejected err, w)
       | None =>
           if ok e then
             match List.find (has_id (VObjectId _id)) (collection w) with
             | Some d =>
                 (Resolved {| result_ok := true; result_value := JsDoc d |},
                  World (heap w) (remove_first (has_id (VObjectId _id)) (collection w)))
             | None => (Resolved {| result_ok := true; result_value := JsNull |}, w)
             end
           else (Resolved {| result_ok := false; result_value := JsNull |}, w)
       end.

End Store.

(** ** The persistence gateway: class [DB] of [db.js] *)

Module DB.
Section Gateway.
Context `{Bson}.

(** [queryAll()] *)
Definition queryAll (e : env) : M (completion (promise (list (gmap string value)))) :=
  p ← find_toArray e;
  mret (Normal p).

(** [queryById(id)]: the identifier is built before the store is asked,
    outside any promise. *)
Definition queryById (id : string) (e : env) : M (completion (promise jsval)) :=
  match ObjectId_new id with
  | None => mret (Throw BSONError)
  | Some _id =>
      p ← findOne _id e;
      mret (Normal p)
  end.

(** [update(id, product)] *)
Definition update (id : string) (product : loc) (e : env) : M (completion (promise jsval)) :=
  match ObjectId_new id with
  | None => mret (Throw BSONError)
  | Some _id =>
      d ← get_object product;
      _ ← match d !! "_id" with
          | Some (VJson (JStr _)) => set_field product "_id" (VObjectId _id)
          | _ => mret tt
          end;
      p ← catch_
            (then_ (replaceOne _id product e)
               (λ result,
                  if bool_decide (modifiedCount result = 1) || bool_decide (matchedCount result = 1)
                  then mret (Normal (JsRef product))
                  else mret (Throw (JsError "Error updating product"))))
            (λ err, mret (Throw err));
      mret (Normal p)
  end.

(** [delete(id)] *)
Definition delete (id : string) (e : env) : M (completion (promise jsval)) :=
  match ObjectId_new id with
  | None => mret (Throw BSONError)
  | Some _id =>
      p ← then_ (findOneAndDelete _id e)
            (λ result,
               if result_ok result
               then mret (Normal (result_value result))
               else mret (Throw (JsError "Error deleting product")));
      mret (Normal p)
  end.

(** [insert(product)] *)
Definition insert (product : loc) (e : env) : M (completion (promise jsval)) :=
  p ← then_ (insertOne product e)
        (λ result,
           if acknowledged result
           then
             _ ← set_field product "_id" (insertedId result);
             mret (Normal (JsRef product))
           else mret (Throw (JsError "Error inserting product")));
  mret (Normal p).

End Gateway.
End DB.

(** ** Validation: the part of [express-validator] the routes use *)

Record URLOptions := {
  require_valid_protocol : bool;
  require_tld : bool;
  require_host : bool
}.

(** The string a standard validator is run on.  The decimal text
    [String(x)] of a number is not spelled out: [OfNumber x] stands for
    it. *)
Inductive text :=
| OfNumber (x : Qc)
| Chars (s : string).

(** The functions of [validator.js] and the built-in conversion of arrays
    and objects to strings, as far as they are left open here:
    [validator_isFloat s min] is [validator.isFloat(s, { min })] on a
    string the client has sent, and likewise for the others. *)
Class ValidatorJs := {
  Object_toString : json → string;
  validator_isFloat : string → Qc → bool;
  validator_isInt : string → Z → bool;
  validator_isURL : text → URLOptions → bool
}.

Module Validator.
Section ExpressValidator.
Context `{Bson, ValidatorJs}.

Inductive Validator :=
| IsString
| IsFloat (min : Qc)
| IsInt (min : Z)
| IsURL (options : URLOptions).

(** A chain [check(field).v1().withMessage(m1)...]: the validators in the
    order they were added, each with its message. *)
Record ValidationChain := {
  chain_field : string;
  chain_stack : list (Validator * string)
}.

Definition check (field : string) : ValidationChain :=
  {| chain_field := field; chain_stack := [] |}.

Definition add (v : Validator) (c : ValidationChain) : ValidationChain :=
  {| chain_field := chain_field c; chain_stack := chain_stack c ++ [(v, "Invalid value")] |}.

Definition isString := add IsString.
Definition isFloat (min : Qc) := add (IsFloat min).
Definition isInt (min : Z) := add (IsInt min).
Definition isURL (options : URLOptions) := add (IsURL options).

(** [.withMessage(m)] names the error of the validator added last. *)
Definition withMessage (m : string) (c : ValidationChain) : ValidationChain :=
  {| chain_field := chain_field c;
     chain_stack := match reverse (chain_stack c) with
                    | [] => []
                    | (v, _) :: rest => reverse ((v, m) :: rest)
                    end |}.

Inductive Middleware :=
| Chain (c : ValidationChain)
| checkExact (chains : list ValidationChain) (locations : list string) (message : string).

Inductive ValidationError :=
| FieldValidationError (value : option value) (msg path location : string)
| UnknownFieldsError (msg : string) (fields : gset string).

(** What one middleware leaves on the request: the fields it knows and
    the errors it found. *)
Record Context := {
  fields : list string;
  errors : list ValidationError
}.

(** [toString] of express-validator; [None] is [undefined]. *)
Definition toString (x : option value) : text :=
  match x with
  | None | Some (VJson JNull) => Chars EmptyString
  | Some (VJson (JBool b)) => Chars (if b then "true" else "false")
  | Some (VJson (JNum q)) => OfNumber q
  | Some (VJson (JStr s)) => Chars s
  | Some (VJson (JArr _ as j)) | Some (VJson (JObj _ as j)) => Chars (Object_toString j)
  | Some (VObjectId o) => Chars (toHexString o)
  end.

(** A whole number below 1e21 in size prints as its digits, and only
    then does the text of a number pass the integer pattern. *)
Definition prints_as_integer (x : Qc) : bool :=
  bool_decide (Qden x = 1%positive) && bool_decide (Z.abs (Qnum x) < 10 ^ 21)%Z.

(** A standard validator on one stringified value.  The text of a
    number always has the shape of a float and reads back as the number,
    so only the bound is left to check. *)
Definition standard (v : Validator) (s : text) : bool :=
  match v, s with
  | IsString, _ => false
  | IsFloat min, OfNumber x => bool_decide (min ≤ x)%Qc
  | IsFloat min, Chars s => validator_isFloat s min
  | IsInt min, OfNumber x => prints_as_integer x && bool_decide (min ≤ Qnum x)%Z
  | IsInt min, Chars s => validator_isInt s min
  | IsURL options, s => validator_isURL s options
  end.

(** The values a validator rejects: [isString] is a custom validator on
    the value as it is ([typeof value === 'string']); a standard one runs
    on every element of an array, and on the value itself otherwise. *)
Definition rejected (v : Validator) (x : option value) : list (option value) :=
  match v with
  | IsString =>
      match x with
      | Some (VJson (JStr _)) => []
      | _ => [x]
      end
  | _ =>
      let values := match x with
                    | Some (VJson (JArr l)) => (λ j, Some (VJson j)) <$> l
                    | _ => [x]
                    end in
      List.filter (λ y, negb (standard v (toString y))) values
  end.

(** The errors one validator of a chain adds: one for every value it
    rejects. *)
Definition field_errors (v : Validator) (m field : string) (body : gmap string value)
    : list ValidationError :=
  (λ x, FieldValidationError x m field "body") <$> rejected v (body !! field).

Definition run_chain (c : ValidationChain) (body : gmap string value) : Context :=
  {| fields := [chain_field c];
     errors := flat_map (λ '(v, m), field_errors v m (chain_field c) body) (chain_stack c) |}.

(** The keys of the body that no chain run on this request so far has
    named. *)
Definition unknown_fields (known : list string) (body : gmap string value) : gset string :=
  filter (λ k, k ∉ known) (dom body).

(** One middleware, run on a request that carries the contexts of the
    middlewares before it. *)
Definition run (m : Middleware) (body : gmap string value) (contexts : list Context) : list Context :=
  match m with
  | Chain c => contexts ++ [run_chain c body]
  | checkExact chains locations message =>
      let contexts' := contexts ++ ((λ c, run_chain c body) <$> chains) in
      let unknown := if bool_decide ("body" ∈ locations)
                     then unknown_fields (flat_map fields contexts') body
                     else ∅ in
      contexts' ++ [{| fields := [];
                       errors := if bool_decide (unknown = ∅) then []
                                 else [UnknownFieldsError message unknown] |}]
  end.

(** Express runs the middlewares of a route in order; none of them ends
    the request. *)
Definition run_all (rules : list Middleware) (body : gmap string value) : list Context :=
  foldl (λ contexts m, run m body contexts) [] rules.

(** [validationResult(req).array()] *)
Definition validationResult (contexts : list Context) : list ValidationError :=
  flat_map errors contexts.

End ExpressValidator.
End Validator.

(** ** The routes *)

Module Router.
Import Validator.
Section Routes.
Context `{Bson, ValidatorJs}.

(** The request as a handler reads it: [req.params.id] and the object
    [req.body].  The recognised field names are taken to occur in the
    body only (not in the query string, the headers or the cookies). *)
Record Request := {
  params_id : string;
  body : loc
}.

Inductive Body :=
| Text (s : string)
| Document (d : gmap string value)
| Documents (l : list (gmap string value))
| Errors (l : list ValidationError)
| Null.

Record Response := {
  status : nat;
  payload : Body
}.

(** How a handler ends: it has sent a response, or its promise rejects
    with no response sent. *)
Inductive handled :=
| Sent (r : Response)
| Unhandled (err : Error).

(** [res.status(code).send(v)]; the object is serialised as it is at
    this moment. *)
Definition send (code : nat) (v : jsval) : M (completion Response) :=
  λ w, (Normal {| status := code;
                  payload := match v with
                             | JsNull => Null
                             | JsRef l => Document (heap w l)
                             | JsDoc d => Document d
                             end |}, w).

Definition send_text (code : nat) (s : string) : M (completion Response) :=
  mret (Normal {| status := code; payload := Text s |}).

(** An [async] handler that returns the promise [c]: a throw before the
    promise exists, or a rejection, leaves the request unanswered by the
    handler. *)
Definition settle (p : promise Response) : handled :=
  match p with
  | Resolved r => Sent r
  | Rejected err => Unhandled err
  end.

Variable productValidationRules : list Middleware.

(** [app.get('/products', ...)] *)
Definition get_products (req : Request) (e : env) : M handled :=
  c ← DB.queryAll e;
  match c with
  | Throw err => mret (Unhandled err)
  | Normal (Rejected err) => mret (Unhandled err)
  | Normal (Resolved products) => mret (Sent {| status := 200; payload := Documents products |})
  end.

(** [app.get('/products/:id', ...)] *)
Definition get_product (req : Request) (e : env) : M handled :=
  c ← DB.queryById (params_id req) e;
  match c with
  | Throw err => mret (Unhandled err)
  | Normal p =>
      r ← catch_
            (then_ (mret p)
               (λ product,
                  if truthy product
                  then send 200 product
                  else send_text 404 "Product not found"))
            (λ err, send_text 500 "Error querying product");
      mret (settle r)
  end.

(** [app.post('/products', productValidationRules, ...)] *)
Definition post_product (req : Request) (e : env) : M handled :=
  b ← get_object (body req);
  let result := validationResult (run_all productValidationRules b) in
  if negb (bool_decide (result = []))
  then mret (Sent {| status := 400; payload := Errors result |})
  else
    let product := body req in
    c ← DB.insert product e;
    match c with
    | Throw err => mret (Unhandled err)
    | Normal p =>
        r ← catch_
              (then_ (mret p) (λ product, send 201 product))
              (λ err, send_text 500 "Error inserting product");
        mret (settle r)
    end.

(** [app.put('/products/:id', productValidationRules, ...)] *)
Definition put_product (req : Request) (e : env) : M handled :=
  b ← get_object (body req);
  let result := validationResult (run_all productValidationRules b) in
  if negb (bool_decide (result = []))
  then mret (Sent {| status := 400; payload := Errors result |})
  else
    let product := body req in
    c ← DB.update (params_id req) product e;
    match c with
    | Throw err => mret (Unhandled err)
    | Normal p =>
        r ← catch_
              (then_ (mret p)
                 (λ product,
                    if truthy product
                    then send 200 product
                    else send_text 404 "Product not found"))
              (λ err, send_text 500 "Error updating product");
        mret (settle r)
    end.

(** [app.delete('/products/:id', ...)] *)
Definition delete_product (req : Request) (e : env) : M handled :=
  c ← DB.delete (params_id req) e;
  match c with
  | Throw err => mret (Unhandled err)
  | Normal p =>
      r ← catch_
            (then_ (mret p)
               (λ product,
                  if truthy product
                  then send 200 product
                  else send_text 404 "Product not found"))
            (λ err, send_text 500 "Error deleting product");
      mret (settle r)
  end.

End Routes.
End Router.

(** The rules of [src/backend/index.js]. *)
Module Index.
Import Validator.
Section Rules.
Context `{Bson, ValidatorJs}.

Definition productValidationRules : list Middleware := [
  Chain (withMessage "Name must be a string" (isString (check "name")));
  Chain (withMessage "Description must be a string" (isString (check "description")));
  Chain (withMessage "Price must be a positive float" (isFloat 0 (check "price")));
  Chain (withMessage "Stock must be a positive integer" (isInt 0 (check "stock")));
  Chain (withMessage "URL must be a valid URL"
           (isURL {| require_valid_protocol := false; require_tld := false; require_host := false |}
              (check "image_url")));
  checkExact [] ["body"] "No additional fields allowed"
].

Definition get_products := Router.get_products.
Definition get_product := Router.get_product.
Definition post_product := Router.post_product productValidationRules.
Definition put_product := Router.put_product productValidationRules.
Definition delete_product := Router.delete_product.

End Rules.
End Index.

(** The rules of [src/unnamed/part_000]: the chain on the URL is commented
    out there. *)
Module Part000.
Import Validator.
Section Rules.
Context `{Bson, ValidatorJs}.

Definition productValidationRules : list Middleware := [
  Chain (withMessage "Name must be a string" (isString (check "name")));
  Chain (withMessage "Description must be a string" (isString (check "description")));
  Chain (withMessage "Price must be a positive float" (isFloat 0 (check "price")));
  Chain (withMessage "Stock must be a positive integer" (isInt 0 (check "stock")));
  checkExact [] ["body"] "No additional fields allowed"
].

Definition get_products := Router.get_products.
Definition get_product := Router.get_product.
Definition post_product := Router.post_product productValidationRules.
Definition put_product := Router.put_product productValidationRules.
Definition delete_product := Router.delete_product.

End Rules.
End Part000.

(** ** Instances to run the model on *)

(** Identifiers as their 24 lower-case hexadecimal digits; the
    constructor accepts the 24-digit strings in either case. *)
Module Hex24.

Definition is_lower_hex (a : ascii) : bool :=
  let n := N_of_ascii a in
  ((48 <=? n) && (n <=? 57) || (97 <=? n) && (n <=? 102))%N.

Definition to_lower (a : ascii) : ascii :=
  let n := N_of_ascii a in
  if ((65 <=? n) && (n <=? 90))%N then ascii_of_N (n + 32) else a.

Fixpoint toLowerCase (s : string) : string :=
  match s with
  | EmptyString => EmptyString
  | String a s' => String (to_lower a) (toLowerCase s')
  end.

Fixpoint all_lower_hex (s : string) : bool :=
  match s with
  | EmptyString => true
  | String a s' => is_lower_hex a && all_lower_hex s'
  end.

Definition canonical (s : string) : bool :=
  bool_decide (String.length s = 24) && all_lower_hex s.

Definition t : Type := { s : string | canonical s = true }.

Definition new (s : string) : option t :=
  match decide (canonical (toLowerCase s) = true) with
  | left ok => Some (toLowerCase s ↾ ok)
  | right _ => None
  end.

Definition hex (o : t) : string := `o.

End Hex24.

(** A small instance of [ValidatorJs] to run the model on: it reads
    integers and decimal fractions without exponent, takes for a URL any
    non-empty string of letters, digits and [: / . - _], and gives arrays
    no text.  The statements below hold for every instance. *)
Module Plain.

Definition digit (a : ascii) : option Z :=
  let n := N_of_ascii a in
  if ((48 <=? n) && (n <=? 57))%N then Some (Z.of_N (n - 48)) else None.

(** The digits of [s] read as a number on top of [acc], with how many
    there were. *)
Fixpoint digits (s : string) (acc : Z) (count : nat) : option (Z * nat) :=
  match s with
  | EmptyString => Some (acc, count)
  | String a s' =>
      match digit a with
      | Some d => digits s' (10 * acc + d)%Z (S count)
      | None => None
      end
  end.

Definition unsigned (s : string) : string * bool :=
  match s with
  | String "-" s' => (s', true)
  | String "+" s' => (s', false)
  | _ => (s, false)
  end.

Fixpoint split_dot (s : string) : string * option string :=
  match s with
  | EmptyString => (EmptyString, None)
  | String "." s' => (EmptyString, Some s')
  | String a s' => let '(i, f) := split_dot s' in (String a i, f)
  end.

Definition isInt (s : string) (min : Z) : bool :=
  let '(body, negative) := unsigned s in
  match body, digits body 0 0 with
  | EmptyString, _ | _, None => false
  | String a rest, Some (n, _) =>
      negb (bool_decide (a = "0"%char) && negb (bool_decide (rest = EmptyString)))
      && bool_decide (min ≤ (if negative then - n else n))%Z
  end.

Definition isFloat (s : string) (min : Qc) : bool :=
  let '(body, negative) := unsigned s in
  let '(i, f) := split_dot body in
  match digits i 0 0, digits (default EmptyString f) 0 0 with
  | Some (n, ni), Some (m, nf) =>
      negb (bool_decide (ni + nf = 0)%nat)
      && bool_decide (min ≤ Q2Qc ((if negative then -1 else 1) * (n * 10 ^ Z.of_nat nf + m)
                                  # Pos.of_nat (10 ^ nf)))%Qc
  | _, _ => false
  end.

Definition url_char (a : ascii) : bool :=
  let n := N_of_ascii a in
  ((48 <=? n) && (n <=? 57) || (97 <=? n) && (n <=? 122) || (65 <=? n) && (n <=? 90)
   || (45 <=? n) && (n <=? 47) || (n =? 58) || (n =? 95))%N.

Fixpoint all_url_chars (s : string) : bool :=
  match s with
  | EmptyString => true
  | String a s' => url_char a && all_url_chars s'
  end.

Definition isURL (s : text) (options : URLOptions) : bool :=
  match s with
  | OfNumber _ => false
  | Chars s => negb (bool_decide (s = EmptyString)) && all_url_chars s
  end.

Definition Object_toString (j : json) : string :=
  match j with
  | JObj _ => "[object Object]"
  | _ => EmptyString
  end.

End Plain.

#[export] Instance plain_validator : ValidatorJs := {|
  Object_toString := Plain.Object_toString;
  validator_isFloat := Plain.isFloat;
  validator_isInt := Plain.isInt;
  validator_isURL := Plain.isURL
|}.

#[export, refine] Instance hex24_bson : Bson := {|
  ObjectId := Hex24.t;
  ObjectId_new := Hex24.new;
  toHexString := Hex24.hex
|}.
Proof.
  abstract (
    intros [s Hs]; unfold Hex24.new, Hex24.hex; simpl;
    assert (Hex24.toLowerCase s = s) as Hl
      by (apply andb_true_iff in Hs as [_ Hs]; clear -Hs;
          induction s as [|a s IH]; simpl in *; [done|];
          apply andb_true_iff in Hs as [Ha Hs]; rewrite IH by done; f_equal;
          clear -Ha; destruct a as [[] [] [] [] [] [] [] []]; vm_compute in *; congruence);
    destruct (decide (Hex24.canonical (Hex24.toLowerCase s) = true)) as [Hc|Hc];
    [f_equal; apply (sig_eq_pi _); exact Hl | by rewrite Hl in Hc]).
Defined.

(** ** Vocabulary of the statements *)

(** The five fields the rules of [index.js] name. *)
Definition recognised : list string := ["name"; "description"; "price"; "stock"; "image_url"].

(** The options [index.js] gives to [isURL]. *)
Definition url_options : URLOptions :=
  {| require_valid_protocol := false; require_tld := false; require_host := false |}.

(** A number as a field of a body. *)
Definition number `{Bson} (q : Q) : value := VJson (JNum (Q2Qc q)).

(** No two documents of a collection have the same [_id]: the unique
    index every collection of the store has on that field. *)
Definition unique_ids `{Bson} (docs : list (gmap string value)) : Prop :=
  NoDup ((λ d, d !! "_id") <$> docs).

(** The world [update] hands to [replaceOne]: the product has received
    the identifier of the path when its own [_id] was a string. *)
Definition coerced `{Bson} (o : ObjectId) (product : loc) (w : world) : world :=
  match heap w product !! "_id" with
  | Some (VJson (JStr _)) =>
      World (<[product := <["_id" := VObjectId o]> (heap w product)]> (heap w)) (collection w)
  | _ => w
  end.

(** A document with no field besides [_id] and the recognised ones. *)
Definition product_shaped `{Bson} (d : gmap string value) : Prop :=
  ∀ k, is_Some (d !! k) → k = "_id" ∨ k ∈ recognised.

(** ** Concrete requests *)

Module Sample.
Import Validator Router.

(** The product of the scenario in the specification. *)
Definition krabs : gmap string value :=
  <["name" := VJson (JStr "Mr. Krabs")]>
  (<["description" := VJson (JStr "Geiziger Restaurantbesitzer")]>
  (<["price" := VJson (JNum (Q2Qc (33 # 2)))]>
  (<["stock" := VJson (JNum (Q2Qc 5))]>
  (<["image_url" := VJson (JStr "https://example.com")]> ∅)))).

(** An identifier, written as in the API documentation of [index.js]. *)
Definition id1 : string := "6439519dadb77c080671a573".

Definition oid1 : ObjectId := "6439519dadb77c080671a573" ↾ eq_refl.

(** The store answers, acknowledges, and the driver draws [oid1]. *)
Definition up : env := Env None true true oid1.

(** The driver call rejects. *)
Definition down : env := Env (Some (MongoError "connection closed")) true true oid1.

(** The store answers a find-and-modify with [ok] unset. *)
Definition not_ok : env := Env None true false oid1.

(** A world whose objects all are [b], with [docs] in the collection. *)
Definition world_of (b : gmap string value) (docs : list (gmap string value)) : world :=
  World (λ _, b) docs.

Definition request (id : string) : Request := {| params_id := id; body := 0 |}.

(** The sample product with a field the rules do not name. *)
Definition krabs_colour : gmap string value := <["colour" := VJson (JStr "red")]> krabs.

(** The sample product as the store holds it under [oid1]. *)
Definition stored : gmap string value := <["_id" := VObjectId oid1]> krabs.

End Sample.

(** * Properties *)

(** ** Every middleware of a route is run *)

Section ValidationFacts.
Import Validator.
Context `{Bson, ValidatorJs}.

Lemma run_extends m b contexts : ∃ new, run m b contexts = contexts ++ new.
Proof.
  destruct m as [c|chains locations message]; simpl.
  - by eexists.
  - rewrite <- app_assoc. by eexists.
Qed.

Lemma foldl_run_extends rules b contexts :
  ∃ new, foldl (λ contexts m, run m b contexts) contexts rules = contexts ++ new.
Proof.
  revert contexts. induction rules as [|m rules IH]; intros contexts; simpl.
  - exists []. by rewrite app_nil_r.
  - destruct (run_extends m b contexts) as [new1 ->].
    destruct (IH (contexts ++ new1)) as [new2 ->].
    exists (new1 ++ new2). by rewrite app_assoc.
Qed.

Lemma run_all_app rules1 rules2 b :
  run_all (rules1 ++ rules2) b = foldl (λ contexts m, run m b contexts) (run_all rules1 b) rules2.
Proof. unfold run_all. by rewrite foldl_app. Qed.

Lemma validationResult_elem contexts ctx err :
  ctx ∈ contexts → err ∈ errors ctx → err ∈ validationResult contexts.
Proof.
  intros Hctx Herr. unfold validationResult.
  apply list_elem_of_In, in_flat_map. exists ctx.
  split; by apply list_elem_of_In.
Qed.

Lemma run_all_middle pre m post b :
  ∃ new, run_all (pre ++ m :: post) b = run m b (run_all pre b) ++ new.
Proof.
  rewrite run_all_app. simpl. apply foldl_run_extends.
Qed.

Lemma chain_errors_reported rules c b err :
  Chain c ∈ rules → err ∈ errors (run_chain c b) → err ∈ validationResult (run_all rules b).
Proof.
  intros (pre & post & ->)%list_elem_of_split Herr.
  destruct (run_all_middle pre (Chain c) post b) as [new ->].
  apply validationResult_elem with (run_chain c b); [|done].
  simpl. apply elem_of_app. left. apply elem_of_app. right. apply list_elem_of_here.
Qed.

Lemma unknown_fields_reported pre chains locations message post b :
  let known := flat_map fields (run_all pre b ++ ((λ c, run_chain c b) <$> chains)) in
  "body" ∈ locations →
  unknown_fields known b ≠ ∅ →
  UnknownFieldsError message (unknown_fields known b)
    ∈ validationResult (run_all (pre ++ checkExact chains locations message :: post) b).
Proof.
  intros known Hloc Hunknown.
  destruct (run_all_middle pre (checkExact chains locations message) post b) as [new ->].
  simpl. rewrite (bool_decide_true ("body" ∈ locations)) by done. fold known.
  rewrite bool_decide_false by done.
  eapply validationResult_elem.
  - apply elem_of_app. left. apply elem_of_app. right. apply list_elem_of_here.
  - simpl. apply list_elem_of_here.
Qed.

Lemma rejected_field_reported rules c v m x b :
  Chain c ∈ rules → (v, m) ∈ chain_stack c → x ∈ rejected v (b !! chain_field c) →
  FieldValidationError x m (chain_field c) "body" ∈ validationResult (run_all rules b).
Proof.
  intros Hc Hv Hx. apply chain_errors_reported with c; [done|].
  simpl. apply list_elem_of_In, in_flat_map. exists (v, m).
  split; [by apply list_elem_of_In|].
  apply list_elem_of_In. unfold field_errors.
  by apply (list_elem_of_fmap_2 (λ y, FieldValidationError y m (chain_field c) "body")).
Qed.

End ValidationFacts.

(** ** The gateway and the routes *)

Section RouteFacts.
Import Validator Router.
Context `{Bson, ValidatorJs}.

Lemma post_product_invalid rules req e w :
  validationResult (run_all rules (heap w (body req))) ≠ [] →
  post_product rules req e w
  = (Sent {| status := 400;
             payload := Errors (validationResult (run_all rules (heap w (body req)))) |}, w).
Proof.
  intros Herr. unfold post_product, get_object, mbind, M_bind, mret, M_ret.
  by rewrite bool_decide_false.
Qed.

Lemma put_product_invalid rules req e w :
  validationResult (run_all rules (heap w (body req))) ≠ [] →
  put_product rules req e w
  = (Sent {| status := 400;
             payload := Errors (validationResult (run_all rules (heap w (body req)))) |}, w).
Proof.
  intros Herr. unfold put_product, get_object, mbind, M_bind, mret, M_ret.
  by rewrite bool_decide_false.
Qed.

Lemma unknown_fields_elem known (b : gmap string value) k :
  k ∈ unknown_fields known b ↔ k ∈ dom b ∧ k ∉ known.
Proof. unfold unknown_fields. rewrite elem_of_filter. tauto. Qed.

(** C4.  A body with a field outside the five recognised ones is answered
    400 on POST and on PUT, whatever its other fields are; the errors sent
    include the one with the message "No additional fields allowed", which
    lists that field, and the world is left as it was. *)
Theorem extra_field_rejected (req : Request) (e : env) (w : world) (k : string) :
  k ∈ dom (heap w (body req)) →
  k ∉ recognised →
  ∃ (errs : list ValidationError) (unknown : gset string),
    k ∈ unknown
    ∧ UnknownFieldsError "No additional fields allowed" unknown ∈ errs
    ∧ Index.post_product req e w = (Sent {| status := 400; payload := Errors errs |}, w)
    ∧ Index.put_product req e w = (Sent {| status := 400; payload := Errors errs |}, w).
Proof.
  intros Hk Hnew.
  set (b := heap w (body req)) in *.
  assert (k ∈ unknown_fields recognised b) as Hunknown by by apply unknown_fields_elem.
  assert (UnknownFieldsError "No additional fields allowed" (unknown_fields recognised b)
          ∈ validationResult (run_all Index.productValidationRules b)) as Herr.
  { apply (unknown_fields_reported
             (take 5 Index.productValidationRules) [] ["body"] _ [] b).
    - apply list_elem_of_here.
    - intros Hempty. change (unknown_fields recognised b = ∅) in Hempty.
      rewrite Hempty in Hunknown. by apply not_elem_of_empty in Hunknown. }
  exists (validationResult (run_all Index.productValidationRules b)), (unknown_fields recognised b).
  split_and!; [done|done|apply post_product_invalid|apply put_product_invalid];
    fold b; intros Hnil; rewrite Hnil in Herr; by apply not_elem_of_nil in Herr.
Qed.

(** The document [insertOne] stores for [d]: [d] itself when it has an
    [_id] that is not null, and [d] with the identifier drawn otherwise. *)
Lemma insert_resolves product e w result w1 :
  insertOne product e w = (Resolved result, w1) →
  fault e = None
  ∧ acknowledged result = ack e
  ∧ existsb (has_id (insertedId result)) (collection w) = false
  ∧ <["_id" := insertedId result]> (heap w product) = heap w1 product
  ∧ (heap w product !! "_id" = None → insertedId result = VObjectId (createPk e))
  ∧ (∀ l, l ≠ product → heap w1 l = heap w l)
  ∧ collection w1 = collection w ++ [heap w1 product].
Proof.
  unfold insertOne. destruct (fault e) as [err|]; [done|].
  set (d := heap w product).
  set (d' := match d !! "_id" with
             | None | Some (VJson JNull) => <["_id" := VObjectId (createPk e)]> d
             | Some _ => d
             end).
  assert (∃ v, d' !! "_id" = Some v ∧ <["_id" := v]> d = d'
               ∧ (d !! "_id" = None → v = VObjectId (createPk e))) as (v & Hv & Hd' & Hnone).
  { subst d'. destruct (d !! "_id") as [[[]|]|] eqn:Hid;
      first [ by exists (VObjectId (createPk e)); rewrite lookup_insert_eq
            | eexists; split_and!; [done|by apply insert_id|done] ]. }
  rewrite Hv. simpl.
  destruct (existsb (has_id v) (collection w)) eqn:Hdup; [done|].
  intros [= <- <-]. simpl. rewrite fn_lookup_insert.
  split_and!; try done.
  intros l Hl. by rewrite fn_lookup_insert_ne.
Qed.

(** C9.  When [insertOne] resolves with an acknowledged result, [insert]
    resolves with the very reference it was given; the object behind it
    has its [_id] set to the [insertedId] of the result, each of its other
    fields is as it was, and no other object has changed. *)
Theorem insert_sets_id_only (product : loc) (e : env) (w w1 : world) (result : InsertOneResult) :
  insertOne product e w = (Resolved result, w1) →
  acknowledged result = true →
  ∃ w', DB.insert product e w = (Normal (Resolved (JsRef product)), w')
    ∧ heap w' product = <["_id" := insertedId result]> (heap w product)
    ∧ heap w' product !! "_id" = Some (insertedId result)
    ∧ (∀ k, k ≠ "_id" → heap w' product !! k = heap w product !! k)
    ∧ (∀ l, l ≠ product → heap w' l = heap w l).
Proof.
  intros Hins Hack.
  destruct (insert_resolves _ _ _ _ _ Hins) as (_ & _ & _ & Hd & _ & Hframe & _).
  unfold DB.insert, then_, set_field, mbind, M_bind, mret, M_ret.
  rewrite Hins, Hack. eexists. split; [done|]. simpl.
  rewrite fn_lookup_insert, <- Hd, insert_insert_eq.
  split_and!; [done|by rewrite lookup_insert_eq|by intros k Hk; rewrite lookup_insert_ne|].
  intros l Hl. rewrite fn_lookup_insert_ne by done. by apply Hframe.
Qed.

Lemma index_valid_no_unknown b :
  validationResult (run_all Index.productValidationRules b) = [] →
  unknown_fields recognised b = ∅.
Proof.
  intros Hnil. destruct (decide (unknown_fields recognised b = ∅)) as [|Hne]; [done|].
  assert (UnknownFieldsError "No additional fields allowed" (unknown_fields recognised b)
          ∈ validationResult (run_all Index.productValidationRules b)) as Herr.
  { apply (unknown_fields_reported
             (take 5 Index.productValidationRules) [] ["body"] _ [] b); [apply list_elem_of_here|done]. }
  rewrite Hnil in Herr. by apply not_elem_of_nil in Herr.
Qed.

Lemma index_valid_dom b k :
  validationResult (run_all Index.productValidationRules b) = [] →
  k ∉ recognised → b !! k = None.
Proof.
  intros Hnil%index_valid_no_unknown Hk.
  apply not_elem_of_dom. intros Hdom.
  assert (k ∈ unknown_fields recognised b) as Hin by by apply unknown_fields_elem.
  rewrite Hnil in Hin. by apply not_elem_of_empty in Hin.
Qed.

Lemma find_appended v (l : list (gmap string value)) d :
  existsb (has_id v) l = false → has_id v d = true →
  List.find (has_id v) (l ++ [d]) = Some d.
Proof.
  intros Hl Hd. induction l as [|d0 l IH]; simpl in *.
  - by rewrite Hd.
  - apply orb_false_iff in Hl as [-> Hl]. by apply IH.
Qed.

Lemma insertOne_fresh product e w :
  fault e = None →
  heap w product !! "_id" = None →
  existsb (has_id (VObjectId (createPk e))) (collection w) = false →
  let d := <["_id" := VObjectId (createPk e)]> (heap w product) in
  insertOne product e w
  = (Resolved {| acknowledged := ack e; insertedId := VObjectId (createPk e) |},
     World (<[product := d]> (heap w)) (collection w ++ [d])).
Proof.
  intros Hup Hnone Hfresh d. unfold insertOne.
  rewrite Hup, Hnone. fold d. subst d. rewrite lookup_insert_eq. simpl.
  by rewrite Hfresh.
Qed.

(** C3.  Take a body that passes the rules of [index.js], a store that
    answers and acknowledges, and a drawn identifier the collection does
    not hold yet.  POST answers 201 with the body and its new [_id]; the
    body had no [_id], and every other field of the created product is the
    field of the body.  GET on the hexadecimal text of that [_id] then
    answers 200 with the same product. *)
Theorem post_then_get (req : Request) (e1 e2 : env) (w : world) :
  validationResult (run_all Index.productValidationRules (heap w (body req))) = [] →
  fault e1 = None →
  ack e1 = true →
  existsb (has_id (VObjectId (createPk e1))) (collection w) = false →
  fault e2 = None →
  ∃ (o : ObjectId) (created : gmap string value) (w1 : world),
    Index.post_product req e1 w = (Sent {| status := 201; payload := Document created |}, w1)
    ∧ created !! "_id" = Some (VObjectId o)
    ∧ heap w (body req) !! "_id" = None
    ∧ (∀ k, k ≠ "_id" → created !! k = heap w (body req) !! k)
    ∧ ∀ req', params_id req' = toHexString o →
        Index.get_product req' e2 w1
        = (Sent {| status := 200; payload := Document created |}, w1).
Proof.
  intros Hvalid Hup Hack Hpk Hup2.
  assert (heap w (body req) !! "_id" = None) as Hfresh.
  { apply index_valid_dom; [done|]. by apply (bool_decide_unpack _). }
  exists (createPk e1), (<["_id" := VObjectId (createPk e1)]> (heap w (body req))).
  eexists. split_and!.
  - unfold Index.post_product, post_product, DB.insert, then_, catch_, get_object, set_field,
      send, send_text, mbind, M_bind, mret, M_ret.
    rewrite Hvalid. simpl. rewrite insertOne_fresh by done. simpl. rewrite Hack. simpl.
    by rewrite !fn_lookup_insert, insert_insert_eq.
  - by rewrite lookup_insert_eq.
  - done.
  - intros k Hk. by rewrite lookup_insert_ne.
  - intros req' Hid.
    unfold Index.get_product, get_product, DB.queryById, findOne, then_, catch_, send,
      mbind, M_bind, mret, M_ret.
    rewrite Hid, ObjectId_new_toHexString. simpl. rewrite Hup2.
    rewrite find_appended; [done|done|].
    unfold has_id. by rewrite lookup_insert_eq, bool_decide_true.
Qed.

Lemma queryById_malformed id e w :
  ObjectId_new id = None → DB.queryById id e w = (Throw BSONError, w).
Proof. intros Hid. unfold DB.queryById. by rewrite Hid. Qed.

(** C1.  For an [id] the identifier constructor refuses, [queryById]
    throws the constructor's error before there is a promise and leaves
    the world as it was.  The handler of the GET route then ends with that
    error and sends no response at all: not the 404 of the claim, and not
    the 500 of its own [catch] either. *)
Theorem get_product_malformed_id (req : Request) (e : env) (w : world) :
  ObjectId_new (params_id req) = None →
  DB.queryById (params_id req) e w = (Throw BSONError, w)
  ∧ Index.get_product req e w = (Unhandled BSONError, w)
  ∧ ∀ r w', Index.get_product req e w ≠ (Sent r, w').
Proof.
  intros Hid.
  assert (Index.get_product req e w = (Unhandled BSONError, w)) as Hget.
  { unfold Index.get_product, get_product, mbind, M_bind, mret, M_ret.
    by rewrite queryById_malformed. }
  split_and!; [by apply queryById_malformed|done|].
  intros r w'. by rewrite Hget.
Qed.

(** [update] as a function of what [replaceOne] answers. *)
Lemma update_cases id product e w :
  (∃ w', DB.update id product e w = (Normal (Resolved (JsRef product)), w'))
  ∨ (∃ err w', DB.update id product e w = (Normal (Rejected err), w'))
  ∨ (∃ err, DB.update id product e w = (Throw err, w)).
Proof.
  unfold DB.update. destruct (ObjectId_new id) as [_id|]; [|right; right; by eexists].
  unfold then_, catch_, get_object, mbind, M_bind, mret, M_ret.
  unfold set_field.
  destruct (heap w product !! "_id") as [[[]|]|]; simpl;
    (destruct (replaceOne _ _ _ _) as [[result|err] w2]; simpl;
     [destruct (_ || _); simpl|]; eauto).
Qed.

(** [update] on an identifier the constructor accepts returns a promise,
    which resolves with the product or rejects. *)
Lemma update_settles id o product e w :
  ObjectId_new id = Some o →
  (∃ w', DB.update id product e w = (Normal (Resolved (JsRef product)), w'))
  ∨ (∃ err w', DB.update id product e w = (Normal (Rejected err), w')).
Proof.
  intros Hid. unfold DB.update. rewrite Hid.
  unfold then_, catch_, get_object, mbind, M_bind, mret, M_ret.
  unfold set_field.
  destruct (heap w product !! "_id") as [[[]|]|]; simpl;
    (destruct (replaceOne _ _ _ _) as [[result|err] w2]; simpl;
     [destruct (_ || _); simpl|]; eauto).
Qed.

(** C8, amended.  [update] never resolves with a falsy value.  On an
    identifier the constructor accepts it returns a promise that resolves
    with the reference it was given, which is truthy, or rejects; on one
    the constructor refuses it returns no promise: the constructor's error
    is thrown and nothing has changed.  So the PUT route never answers
    404, whatever the rules, the request and the store. *)
Theorem update_never_falsy :
  (∀ id product e w,
     match ObjectId_new id with
     | Some _ =>
         (∃ w', DB.update id product e w = (Normal (Resolved (JsRef product)), w')
                ∧ truthy (JsRef product) = true)
         ∨ (∃ err w', DB.update id product e w = (Normal (Rejected err), w'))
     | None => DB.update id product e w = (Throw BSONError, w)
     end)
  ∧ (∀ rules req e w b, (put_product rules req e w).1 ≠ Sent {| status := 404; payload := b |}).
Proof.
  split.
  - intros id product e w. destruct (ObjectId_new id) as [o|] eqn:Hid.
    + destruct (update_settles id o product e w Hid) as [[w' Hu]|Hu]; eauto.
    + unfold DB.update. by rewrite Hid.
  - intros rules req e w b.
    unfold put_product, get_object, mbind, M_bind, mret, M_ret.
    destruct (negb _); [done|].
    destruct (update_cases (params_id req) (body req) e w)
      as [[w' ->]|[(err & w' & ->)|(err & ->)]]; done.
Qed.

(** Where the first document with a given [_id] is and what removing it
    leaves. *)
Lemma delete_cases id o e w :
  ObjectId_new id = Some o →
  DB.delete id e w =
    match fault e with
    | Some err => (Normal (Rejected err), w)
    | None =>
        if ok e then
          match List.find (has_id (VObjectId o)) (collection w) with
          | Some d => (Normal (Resolved (JsDoc d)),
                       World (heap w) (remove_first (has_id (VObjectId o)) (collection w)))
          | None => (Normal (Resolved JsNull), w)
          end
        else (Normal (Rejected (JsError "Error deleting product")), w)
    end.
Proof.
  intros Hid. unfold DB.delete, then_, findOneAndDelete, mbind, M_bind, mret, M_ret.
  rewrite Hid. destruct (fault e); [done|]. destruct (ok e); [|done].
  by destruct (List.find _ _).
Qed.

(** C7.  For an [id] the constructor accepts, on a store that answers:
    when a document has this identifier, [delete] resolves with the first
    such document and the collection has lost it, and the route answers
    200 with it; when none has, [delete] resolves with [null], nothing
    changes, and the route answers 404 "Product not found".  On a store
    that fails, [delete] fails: when the driver call rejects, its promise
    rejects with the driver's error, and when the driver reports [ok]
    unset, with "Error deleting product"; the route answers 500 either
    way and nothing changes.  The promise of [delete] rejects in these two
    cases only, and [delete] does not throw. *)
Theorem delete_outcomes (req : Request) (o : ObjectId) (e : env) (w : world) :
  ObjectId_new (params_id req) = Some o →
  (fault e = None → ok e = true →
     match List.find (has_id (VObjectId o)) (collection w) with
     | Some d =>
         let w' := World (heap w) (remove_first (has_id (VObjectId o)) (collection w)) in
         DB.delete (params_id req) e w = (Normal (Resolved (JsDoc d)), w')
         ∧ Index.delete_product req e w = (Sent {| status := 200; payload := Document d |}, w')
         ∧ d ∈ collection w
         ∧ length (collection w') + 1 = length (collection w)
     | None =>
         DB.delete (params_id req) e w = (Normal (Resolved JsNull), w)
         ∧ Index.delete_product req e w
           = (Sent {| status := 404; payload := Text "Product not found" |}, w)
     end)
  ∧ (∀ err, fault e = Some err →
       DB.delete (params_id req) e w = (Normal (Rejected err), w)
       ∧ Index.delete_product req e w
         = (Sent {| status := 500; payload := Text "Error deleting product" |}, w))
  ∧ (fault e = None → ok e = false →
       DB.delete (params_id req) e w
       = (Normal (Rejected (JsError "Error deleting product")), w)
       ∧ Index.delete_product req e w
         = (Sent {| status := 500; payload := Text "Error deleting product" |}, w))
  ∧ (∀ err w', DB.delete (params_id req) e w = (Normal (Rejected err), w') →
       w' = w ∧ (fault e = Some err ∨ fault e = None ∧ ok e = false))
  ∧ (∀ err w', DB.delete (params_id req) e w ≠ (Throw err, w')).
Proof.
  intros Hid.
  unfold Index.delete_product, delete_product, mbind, M_bind, mret, M_ret.
  rewrite (delete_cases _ _ e w Hid).
  split_and!.
  - intros -> ->. destruct (List.find _ _) as [d|] eqn:Hfind.
    + split_and!; [done|done| |].
      * apply list_elem_of_In. by apply find_some in Hfind as [? _].
      * simpl. clear Hid. induction (collection w) as [|d0 l IH]; [done|].
        simpl in *. destruct (has_id (VObjectId o) d0); simpl; [lia|].
        rewrite IH by done. done.
    + done.
  - by intros err ->.
  - by intros -> ->.
  - intros err w'. destruct (fault e) as [err0|].
    + intros [= <- <-]. eauto.
    + destruct (ok e); [by destruct (List.find _ _)|]. intros [= <- <-]. eauto.
  - intros err w'. destruct (fault e); [done|]. destruct (ok e); [|done].
    by destruct (List.find _ _).
Qed.
End RouteFacts.

(** ** The rules of the two route files *)

Section RuleFacts.
Import Validator Router.
Context `{Bson, ValidatorJs}.

Lemma index_result b :
  validationResult (run_all Index.productValidationRules b)
  = field_errors IsString "Name must be a string" "name" b
    ++ field_errors IsString "Description must be a string" "description" b
    ++ field_errors (IsFloat 0) "Price must be a positive float" "price" b
    ++ field_errors (IsInt 0) "Stock must be a positive integer" "stock" b
    ++ field_errors (IsURL url_options) "URL must be a valid URL" "image_url" b
    ++ (if bool_decide (unknown_fields recognised b = ∅) then []
        else [UnknownFieldsError "No additional fields allowed" (unknown_fields recognised b)]).
Proof.
  unfold Index.productValidationRules, run_all, validationResult. cbn.
  by rewrite ?app_nil_r, <- ?app_assoc.
Qed.

Lemma part000_result b :
  validationResult (run_all Part000.productValidationRules b)
  = field_errors IsString "Name must be a string" "name" b
    ++ field_errors IsString "Description must be a string" "description" b
    ++ field_errors (IsFloat 0) "Price must be a positive float" "price" b
    ++ field_errors (IsInt 0) "Stock must be a positive integer" "stock" b
    ++ (if bool_decide (unknown_fields ["name"; "description"; "price"; "stock"] b = ∅) then []
        else [UnknownFieldsError "No additional fields allowed"
                (unknown_fields ["name"; "description"; "price"; "stock"] b)]).
Proof.
  unfold Part000.productValidationRules, run_all, validationResult. cbn.
  by rewrite ?app_nil_r, <- ?app_assoc.
Qed.

Lemma field_errors_insert_ne v m field k x b :
  k ≠ field → field_errors v m field (<[k := x]> b) = field_errors v m field b.
Proof. intros Hne. unfold field_errors. by rewrite lookup_insert_ne. Qed.

Lemma unknown_fields_insert known k x b :
  k ∈ known → unknown_fields known (<[k := x]> b) = unknown_fields known b.
Proof.
  intros Hk. apply set_eq. intros k'. rewrite !unknown_fields_elem, dom_insert.
  rewrite elem_of_union, elem_of_singleton. split; [|tauto].
  intros [[->|Hdom] Hnot]; [done|tauto].
Qed.

Lemma reported_is_400 rules req e w err :
  err ∈ validationResult (run_all rules (heap w (body req))) →
  ∃ errs, err ∈ errs
    ∧ post_product rules req e w = (Sent {| status := 400; payload := Errors errs |}, w)
    ∧ put_product rules req e w = (Sent {| status := 400; payload := Errors errs |}, w).
Proof.
  intros Herr. eexists. split; [exact Herr|].
  split; [apply post_product_invalid|apply put_product_invalid];
    intros Hnil; rewrite Hnil in Herr; by apply not_elem_of_nil in Herr.
Qed.

Lemma post_product_valid_status rules req e w r w' :
  validationResult (run_all rules (heap w (body req))) = [] →
  post_product rules req e w = (Sent r, w') → status r = 201 ∨ status r = 500.
Proof.
  intros Hvalid.
  unfold post_product, DB.insert, then_, catch_, get_object, set_field, send, send_text,
    mbind, M_bind, mret, M_ret.
  rewrite Hvalid. simpl.
  destruct (insertOne (body req) e w) as [[result|err] w1]; simpl.
  - destruct (acknowledged result); simpl; intros [= <- <-]; eauto.
  - intros [= <- <-]; eauto.
Qed.

Lemma put_product_valid_status rules req e w r w' :
  validationResult (run_all rules (heap w (body req))) = [] →
  put_product rules req e w = (Sent r, w') → status r = 200 ∨ status r = 500.
Proof.
  intros Hvalid.
  unfold put_product, get_object, mbind, M_bind, mret, M_ret.
  rewrite Hvalid. simpl.
  destruct (update_cases (params_id req) (body req) e w)
    as [[w1 ->]|[(err & w1 & ->)|(err & ->)]]; simpl; [| |done].
  - unfold send. intros [= <- <-]; eauto.
  - intros [= <- <-]; eauto.
Qed.

Lemma negative_not_float (x : Qc) :
  (x < 0)%Qc → rejected (IsFloat 0) (Some (VJson (JNum x))) = [Some (VJson (JNum x))].
Proof.
  intros Hneg. simpl. rewrite bool_decide_false; [done|].
  by apply Qclt_not_le.
Qed.

Lemma negative_not_int (x : Qc) :
  (x < 0)%Qc → rejected (IsInt 0) (Some (VJson (JNum x))) = [Some (VJson (JNum x))].
Proof.
  intros Hneg. simpl.
  rewrite (bool_decide_false (0 ≤ Qnum x)%Z), andb_false_r; [done|].
  unfold Qclt, Qlt in Hneg. simpl in Hneg. lia.
Qed.

(** C5.  Let [b] pass the rules of [index.js].  With [price] and [stock]
    set to 0 it still passes, and neither POST nor PUT answers 400 to it.
    With [price] set to a number below 0, such as -0.01, or with [stock]
    set to a number below 0, such as -1, POST and PUT answer 400 and the
    errors name the price, respectively the stock. *)
Theorem price_stock_boundary (b : gmap string value) :
  validationResult (run_all Index.productValidationRules b) = [] →
  (validationResult (run_all Index.productValidationRules
      (<["price" := number 0]> (<["stock" := number 0]> b))) = []
   ∧ ∀ req e w r w',
       heap w (body req) = <["price" := number 0]> (<["stock" := number 0]> b) →
       (Index.post_product req e w = (Sent r, w') → status r ≠ 400)
       ∧ (Index.put_product req e w = (Sent r, w') → status r ≠ 400))
  ∧ (∀ (x : Qc) req e w,
       (x < 0)%Qc →
       heap w (body req) = <["price" := VJson (JNum x)]> b →
       ∃ errs,
         FieldValidationError (Some (VJson (JNum x))) "Price must be a positive float"
           "price" "body" ∈ errs
         ∧ Index.post_product req e w = (Sent {| status := 400; payload := Errors errs |}, w)
         ∧ Index.put_product req e w = (Sent {| status := 400; payload := Errors errs |}, w))
  ∧ (∀ (x : Qc) req e w,
       (x < 0)%Qc →
       heap w (body req) = <["stock" := VJson (JNum x)]> b →
       ∃ errs,
         FieldValidationError (Some (VJson (JNum x))) "Stock must be a positive integer"
           "stock" "body" ∈ errs
         ∧ Index.post_product req e w = (Sent {| status := 400; payload := Errors errs |}, w)
         ∧ Index.put_product req e w = (Sent {| status := 400; payload := Errors errs |}, w)).
Proof.
  intros Hvalid.
  assert (validationResult (run_all Index.productValidationRules
            (<["price" := number 0]> (<["stock" := number 0]> b))) = []) as Hzero.
  { rewrite index_result in Hvalid. rewrite index_result.
    repeat (apply app_nil in Hvalid as [? Hvalid]).
    rewrite !unknown_fields_insert by (by apply (bool_decide_unpack _)).
    repeat (apply app_nil; split);
      rewrite ?field_errors_insert_ne by done; try done.
    - unfold field_errors. by rewrite lookup_insert_eq.
    - unfold field_errors. by rewrite lookup_insert_eq. }
  split_and!.
  - done.
  - intros req e w r w' Hb. rewrite <- Hb in Hzero. split; intros Hr.
    + destruct (post_product_valid_status _ _ _ _ _ _ Hzero Hr) as [-> | ->]; done.
    + destruct (put_product_valid_status _ _ _ _ _ _ Hzero Hr) as [-> | ->]; done.
  - intros x req e w Hneg Hb. apply reported_is_400. rewrite Hb, index_result.
    do 2 (apply elem_of_app; right). apply elem_of_app; left.
    unfold field_errors. rewrite lookup_insert_eq, negative_not_float by done.
    apply list_elem_of_here.
  - intros x req e w Hneg Hb. apply reported_is_400. rewrite Hb, index_result.
    do 3 (apply elem_of_app; right). apply elem_of_app; left.
    unfold field_errors. rewrite lookup_insert_eq, negative_not_int by done.
    apply list_elem_of_here.
Qed.

(** C10.  Under the rules of [part_000], a body with an [image_url] field
    is answered 400 on POST and on PUT with the error "No additional
    fields allowed" listing [image_url].  Under the rules of [index.js]
    the same field is not unknown, and a body that passes them is not
    answered 400: the two rule sets accept different bodies. *)
Theorem image_url_unknown_without_rule (req : Request) (e : env) (w : world) :
  is_Some (heap w (body req) !! "image_url") →
  (∃ (errs : list ValidationError) (unknown : gset string),
     "image_url" ∈ unknown
     ∧ UnknownFieldsError "No additional fields allowed" unknown ∈ errs
     ∧ Part000.post_product req e w = (Sent {| status := 400; payload := Errors errs |}, w)
     ∧ Part000.put_product req e w = (Sent {| status := 400; payload := Errors errs |}, w))
  ∧ ("image_url" ∉ unknown_fields recognised (heap w (body req)))
  ∧ (validationResult (run_all Index.productValidationRules (heap w (body req))) = [] →
     (∀ r w',
        (Index.post_product req e w = (Sent r, w') → status r ≠ 400)
        ∧ (Index.put_product req e w = (Sent r, w') → status r ≠ 400))).
Proof.
  intros Hurl. set (b := heap w (body req)) in *.
  set (known := ["name"; "description"; "price"; "stock"]).
  assert ("image_url" ∈ unknown_fields known b) as Hunknown.
  { apply unknown_fields_elem. split; [by apply elem_of_dom|].
    by apply (bool_decide_unpack _). }
  split_and!.
  - exists (validationResult (run_all Part000.productValidationRules b)), (unknown_fields known b).
    split; [done|].
    assert (UnknownFieldsError "No additional fields allowed" (unknown_fields known b)
            ∈ validationResult (run_all Part000.productValidationRules b)) as Herr.
    { rewrite part000_result. do 4 (apply elem_of_app; right). fold known.
      rewrite bool_decide_false; [apply list_elem_of_here|].
      intros Hempty. rewrite Hempty in Hunknown. by apply not_elem_of_empty in Hunknown. }
    split; [done|].
    split; [apply post_product_invalid|apply put_product_invalid];
      fold b; intros Hnil; rewrite Hnil in Herr; by apply not_elem_of_nil in Herr.
  - rewrite unknown_fields_elem. intros [_ Hnot]. apply Hnot.
    by apply (bool_decide_unpack _).
  - intros Hvalid r w'. split; intros Hr.
    + destruct (post_product_valid_status _ _ _ _ _ _ Hvalid Hr) as [-> | ->]; done.
    + destruct (put_product_valid_status _ _ _ _ _ _ Hvalid Hr) as [-> | ->]; done.
Qed.

(** C6.  When the rules find any error, POST and PUT answer 400 with all
    the errors of all the rules and leave the world as it was: every value
    a validator of any chain rejects has its error in the answer, and so
    has every exact check that finds unknown fields, whatever the rules
    before them found. *)
Theorem validation_failures_collected (rules : list Middleware) (req : Request) (e : env)
    (w : world) :
  validationResult (run_all rules (heap w (body req))) ≠ [] →
  let b := heap w (body req) in
  let errs := validationResult (run_all rules b) in
  post_product rules req e w = (Sent {| status := 400; payload := Errors errs |}, w)
  ∧ put_product rules req e w = (Sent {| status := 400; payload := Errors errs |}, w)
  ∧ (∀ c v m x,
       Chain c ∈ rules → (v, m) ∈ chain_stack c → x ∈ rejected v (b !! chain_field c) →
       FieldValidationError x m (chain_field c) "body" ∈ errs)
  ∧ (∀ pre chains locations message post,
       rules = pre ++ checkExact chains locations message :: post →
       "body" ∈ locations →
       let known := flat_map fields (run_all pre b ++ ((λ c, run_chain c b) <$> chains)) in
       unknown_fields known b ≠ ∅ →
       UnknownFieldsError message (unknown_fields known b) ∈ errs).
Proof.
  intros Herr b errs. split_and!.
  - by apply post_product_invalid.
  - by apply put_product_invalid.
  - intros c v m x. apply rejected_field_reported.
  - intros pre chains locations message post -> Hloc known Hunknown.
    by apply unknown_fields_reported.
Qed.

(** A request answered 400 has left the world as it was. *)
Lemma answered_400_unchanged (rules : list Middleware) (req : Request) (e : env)
    (w w' : world) (r : Response) :
  status r = 400 →
  (post_product rules req e w = (Sent r, w') → w' = w)
  ∧ (put_product rules req e w = (Sent r, w') → w' = w).
Proof.
  intros Hstatus.
  destruct (decide (validationResult (run_all rules (heap w (body req))) = [])) as [Hvalid|Herr].
  - split; intros Hr.
    + destruct (post_product_valid_status _ _ _ _ _ _ Hvalid Hr); congruence.
    + destruct (put_product_valid_status _ _ _ _ _ _ Hvalid Hr); congruence.
  - rewrite post_product_invalid, put_product_invalid by done.
    split; congruence.
Qed.
End RuleFacts.

(** ** The statements on concrete requests *)

Section Runs.
Import Validator Router Sample.

(** C1 on the request [GET /products/abc]. *)
Lemma get_product_malformed_id_witness :
  ObjectId_new (params_id (request "abc")) = None
  ∧ DB.queryById "abc" up (world_of krabs []) = (Throw BSONError, world_of krabs [])
  ∧ Index.get_product (request "abc") up (world_of krabs [])
    = (Unhandled BSONError, world_of krabs [])
  ∧ ∀ r w', Index.get_product (request "abc") up (world_of krabs []) ≠ (Sent r, w').
Proof.
  split; [reflexivity|].
  apply (get_product_malformed_id (request "abc") up (world_of krabs [])). reflexivity.
Defined.

(** C8 as stated fails: on [abc] the identifier constructor throws, so
    [update] neither resolves nor rejects; there is no promise. *)
Lemma update_throws_on_malformed_id :
  ObjectId_new "abc" = None
  ∧ DB.update "abc" 0 up (world_of krabs []) = (Throw BSONError, world_of krabs [])
  ∧ ¬ (∀ id product e w,
         (∃ w', DB.update id product e w = (Normal (Resolved (JsRef product)), w'))
         ∨ (∃ err w', DB.update id product e w = (Normal (Rejected err), w'))).
Proof.
  split_and!; [reflexivity|reflexivity|].
  intros Hclaim.
  destruct (Hclaim "abc" 0 up (world_of krabs [])) as [[w' Hu]|(err & w' & Hu)];
    discriminate Hu.
Qed.

(** [abc] is no identifier, and the handler of [GET /products/abc] ends
    with the constructor's error and no response, so it is not the case
    that every such request is answered 404. *)
Lemma get_product_malformed_id_unanswered :
  ObjectId_new "abc" = None
  ∧ Index.get_product (request "abc") up (world_of krabs [])
    = (Unhandled BSONError, world_of krabs [])
  ∧ ¬ (∀ req e w, ObjectId_new (params_id req) = None →
         ∃ b w', Index.get_product req e w = (Sent {| status := 404; payload := b |}, w')).
Proof.
  split_and!; [reflexivity|reflexivity|].
  intros Hclaim.
  destruct (Hclaim (request "abc") up (world_of krabs []) eq_refl) as (b & w' & Hget).
  discriminate Hget.
Qed.

(** C2 on a concrete request: the identifier is well-formed, the body
    passes the rules and the collection is empty, and PUT answers 500
    "Error updating product" where the claim has 404 "Product not found". *)
Lemma put_product_missing_is_500 :
  ObjectId_new id1 = Some oid1
  ∧ validationResult (run_all Index.productValidationRules krabs) = []
  ∧ List.find (has_id (VObjectId oid1)) (collection (world_of krabs [])) = None
  ∧ Index.put_product (request id1) up (world_of krabs [])
    = (Sent {| status := 500; payload := Text "Error updating product" |}, world_of krabs []).
Proof. split_and!; reflexivity. Qed.

(** C3 on the sample product and an empty collection. *)
Lemma post_then_get_witness :
  validationResult (run_all Index.productValidationRules (heap (world_of krabs []) (body (request id1)))) = []
  ∧ fault up = None
  ∧ ack up = true
  ∧ existsb (has_id (VObjectId (createPk up))) (collection (world_of krabs [])) = false
  ∧ ∃ (o : ObjectId) (created : gmap string value) (w1 : world),
      Index.post_product (request id1) up (world_of krabs [])
      = (Sent {| status := 201; payload := Document created |}, w1)
      ∧ created !! "_id" = Some (VObjectId o)
      ∧ heap (world_of krabs []) (body (request id1)) !! "_id" = None
      ∧ (∀ k, k ≠ "_id" → created !! k = heap (world_of krabs []) (body (request id1)) !! k)
      ∧ ∀ req', params_id req' = toHexString o →
          Index.get_product req' up w1
          = (Sent {| status := 200; payload := Document created |}, w1).
Proof.
  split_and!; [reflexivity|reflexivity|reflexivity|reflexivity|].
  apply (post_then_get (request id1) up up (world_of krabs [])); reflexivity.
Defined.

(** C4 on the sample product with a [colour]. *)
Lemma extra_field_rejected_witness :
  "colour" ∈ dom (heap (world_of krabs_colour []) (body (request id1)))
  ∧ ("colour" ∉ recognised)
  ∧ ∃ (errs : list ValidationError) (unknown : gset string),
      "colour" ∈ unknown
      ∧ UnknownFieldsError "No additional fields allowed" unknown ∈ errs
      ∧ Index.post_product (request id1) up (world_of krabs_colour [])
        = (Sent {| status := 400; payload := Errors errs |}, world_of krabs_colour [])
      ∧ Index.put_product (request id1) up (world_of krabs_colour [])
        = (Sent {| status := 400; payload := Errors errs |}, world_of krabs_colour []).
Proof.
  assert ("colour" ∈ dom (heap (world_of krabs_colour []) (body (request id1)))) as Hdom
    by (apply (bool_decide_unpack _); exact I).
  assert ("colour" ∉ recognised) as Hnew
    by (apply (bool_decide_unpack _); exact I).
  split_and!; [exact Hdom|exact Hnew|].
  exact (extra_field_rejected (request id1) up (world_of krabs_colour []) "colour" Hdom Hnew).
Defined.

(** C5 on the sample product. *)
Lemma price_stock_boundary_witness :
  validationResult (run_all Index.productValidationRules krabs) = []
  ∧ validationResult (run_all Index.productValidationRules
       (<["price" := number 0]> (<["stock" := number 0]> krabs))) = []
  ∧ (∃ errs,
       Index.post_product (request id1) up (world_of (<["price" := number (-1 # 100)]> krabs) [])
       = (Sent {| status := 400; payload := Errors errs |},
          world_of (<["price" := number (-1 # 100)]> krabs) []))
  ∧ (∃ errs,
       Index.put_product (request id1) up (world_of (<["stock" := number (-1)]> krabs) [])
       = (Sent {| status := 400; payload := Errors errs |},
          world_of (<["stock" := number (-1)]> krabs) [])).
Proof.
  assert (validationResult (run_all Index.productValidationRules krabs) = []) as Hvalid
    by reflexivity.
  destruct (price_stock_boundary krabs Hvalid) as ([Hzero _] & Hprice & Hstock).
  split_and!; [exact Hvalid|exact Hzero| |].
  - destruct (Hprice (Q2Qc (-1 # 100)) (request id1) up
                (world_of (<["price" := number (-1 # 100)]> krabs) []) eq_refl eq_refl)
      as (errs & _ & Hpost & _).
    by exists errs.
  - destruct (Hstock (Q2Qc (-1)) (request id1) up
                (world_of (<["stock" := number (-1)]> krabs) []) eq_refl eq_refl)
      as (errs & _ & _ & Hput).
    by exists errs.
Defined.

(** C6 on a body with one unknown field and nothing else: all six rules
    report. *)
Lemma validation_failures_collected_witness :
  validationResult (run_all Index.productValidationRules
    (heap (world_of {["colour" := VJson (JStr "red")]} []) (body (request id1)))) ≠ []
  ∧ Index.post_product (request id1) up (world_of {["colour" := VJson (JStr "red")]} [])
    = (Sent {| status := 400;
               payload := Errors (validationResult (run_all Index.productValidationRules
                                    {["colour" := VJson (JStr "red")]})) |},
       world_of {["colour" := VJson (JStr "red")]} [])
  ∧ length (validationResult (run_all Index.productValidationRules
              {["colour" := VJson (JStr "red")]})) = 6.
Proof.
  assert (validationResult (run_all Index.productValidationRules
            (heap (world_of {["colour" := VJson (JStr "red")]} []) (body (request id1)))) ≠ [])
    as Herr by (intros Hnil; apply (f_equal length) in Hnil; discriminate Hnil).
  split_and!; [exact Herr| |reflexivity].
  exact (proj1 (validation_failures_collected Index.productValidationRules (request id1) up
                  (world_of {["colour" := VJson (JStr "red")]} []) Herr)).
Defined.

(** C7 on a collection that holds the identifier and on an empty one,
    and on a store that rejects the call or reports [ok] unset. *)
Lemma delete_outcomes_witness :
  ObjectId_new (params_id (request id1)) = Some oid1
  ∧ Index.delete_product (request id1) up (world_of krabs [stored])
    = (Sent {| status := 200; payload := Document stored |}, world_of krabs [])
  ∧ Index.delete_product (request id1) up (world_of krabs [])
    = (Sent {| status := 404; payload := Text "Product not found" |}, world_of krabs [])
  ∧ DB.delete id1 down (world_of krabs [stored])
    = (Normal (Rejected (MongoError "connection closed")), world_of krabs [stored])
  ∧ Index.delete_product (request id1) down (world_of krabs [stored])
    = (Sent {| status := 500; payload := Text "Error deleting product" |},
       world_of krabs [stored])
  ∧ DB.delete id1 not_ok (world_of krabs [stored])
    = (Normal (Rejected (JsError "Error deleting product")), world_of krabs [stored])
  ∧ Index.delete_product (request id1) not_ok (world_of krabs [stored])
    = (Sent {| status := 500; payload := Text "Error deleting product" |},
       world_of krabs [stored]).
Proof.
  assert (ObjectId_new (params_id (request id1)) = Some oid1) as Hid by reflexivity.
  destruct (delete_outcomes (request id1) oid1 up (world_of krabs [stored]) Hid)
    as (Hfound & _).
  destruct (delete_outcomes (request id1) oid1 up (world_of krabs []) Hid)
    as (Hmissing & _).
  destruct (delete_outcomes (request id1) oid1 down (world_of krabs [stored]) Hid)
    as (_ & Hdown & _).
  destruct (delete_outcomes (request id1) oid1 not_ok (world_of krabs [stored]) Hid)
    as (_ & _ & Hnot_ok & _).
  destruct (Hdown _ eq_refl) as [Hdown1 Hdown2].
  destruct (Hnot_ok eq_refl eq_refl) as [Hnot_ok1 Hnot_ok2].
  split_and!; [exact Hid| | |exact Hdown1|exact Hdown2|exact Hnot_ok1|exact Hnot_ok2].
  - exact (proj1 (proj2 (Hfound eq_refl eq_refl))).
  - exact (proj2 (Hmissing eq_refl eq_refl)).
Defined.

(** C9 on the sample product. *)
Lemma insert_sets_id_only_witness :
  insertOne 0 up (world_of krabs [])
  = (Resolved {| acknowledged := true; insertedId := VObjectId oid1 |},
     (insertOne 0 up (world_of krabs [])).2)
  ∧ ∃ w', DB.insert 0 up (world_of krabs []) = (Normal (Resolved (JsRef 0)), w')
      ∧ heap w' 0 = stored.
Proof.
  assert (insertOne 0 up (world_of krabs [])
          = (Resolved {| acknowledged := true; insertedId := VObjectId oid1 |},
             (insertOne 0 up (world_of krabs [])).2)) as Hins by reflexivity.
  split; [exact Hins|].
  destruct (insert_sets_id_only 0 up (world_of krabs []) _ _ Hins eq_refl)
    as (w' & Hinsert & Hheap & _).
  exists w'. split; [exact Hinsert|exact Hheap].
Defined.

(** C10 on the sample product, which passes the rules of [index.js]. *)
Lemma image_url_unknown_without_rule_witness :
  is_Some (heap (world_of krabs []) (body (request id1)) !! "image_url")
  ∧ validationResult (run_all Index.productValidationRules krabs) = []
  ∧ ∃ (errs : list ValidationError) (unknown : gset string),
      "image_url" ∈ unknown
      ∧ UnknownFieldsError "No additional fields allowed" unknown ∈ errs
      ∧ Part000.post_product (request id1) up (world_of krabs [])
        = (Sent {| status := 400; payload := Errors errs |}, world_of krabs [])
      ∧ Part000.put_product (request id1) up (world_of krabs [])
        = (Sent {| status := 400; payload := Errors errs |}, world_of krabs []).
Proof.
  assert (is_Some (heap (world_of krabs []) (body (request id1)) !! "image_url")) as Hurl
    by (eexists; reflexivity).
  split_and!; [exact Hurl|reflexivity|].
  exact (proj1 (image_url_unknown_without_rule (request id1) up (world_of krabs []) Hurl)).
Defined.
End Runs.

(** ** More on the routes and the rules *)

Section MoreRoutes.
Import Validator Router.
Context `{Bson, ValidatorJs}.

Ltac run_monad :=
  unfold then_, catch_, get_object, set_field, send, send_text, settle,
    mbind, M_bind, mret, M_ret.

Lemma get_product_cases req o e w :
  ObjectId_new (params_id req) = Some o →
  Index.get_product req e w =
    (match fault e with
     | Some _ => Sent {| status := 500; payload := Text "Error querying product" |}
     | None =>
         match List.find (has_id (VObjectId o)) (collection w) with
         | Some d => Sent {| status := 200; payload := Document d |}
         | None => Sent {| status := 404; payload := Text "Product not found" |}
         end
     end, w).
Proof.
  intros Hid. unfold Index.get_product, get_product, DB.queryById, findOne. run_monad.
  rewrite Hid. destruct (fault e); [done|]. by destruct (List.find _ _).
Qed.

(** X1.  GET on a well-formed identifier: 500 "Error querying product"
    when the store fails; 200 with the first document of the collection
    that carries this identifier when there is one; 404 "Product not
    found" when no document carries it.  The world is left as it was. *)
Theorem get_product_answers (req : Request) (o : ObjectId) (e : env) (w : world) :
  ObjectId_new (params_id req) = Some o →
  (∀ err, fault e = Some err →
     Index.get_product req e w
     = (Sent {| status := 500; payload := Text "Error querying product" |}, w))
  ∧ (∀ d, fault e = None → List.find (has_id (VObjectId o)) (collection w) = Some d →
       Index.get_product req e w = (Sent {| status := 200; payload := Document d |}, w)
       ∧ d ∈ collection w ∧ d !! "_id" = Some (VObjectId o))
  ∧ (fault e = None → (∀ d, d ∈ collection w → d !! "_id" ≠ Some (VObjectId o)) →
       Index.get_product req e w
       = (Sent {| status := 404; payload := Text "Product not found" |}, w)).
Proof.
  intros Hid. rewrite (get_product_cases req o e w Hid). split_and!.
  - by intros err ->.
  - intros d -> Hfind. rewrite Hfind. split; [done|].
    apply find_some in Hfind as [Hin Hd]. split; [by apply list_elem_of_In|].
    unfold has_id in Hd. by apply bool_decide_eq_true in Hd.
  - intros -> Hnone. destruct (List.find _ _) as [d|] eqn:Hfind; [|done].
    apply find_some in Hfind as [Hin Hd]. exfalso.
    apply (Hnone d); [by apply list_elem_of_In|].
    unfold has_id in Hd. by apply bool_decide_eq_true in Hd.
Qed.

Lemma get_products_cases req e w :
  Index.get_products req e w
  = (match fault e with
     | None => Sent {| status := 200; payload := Documents (collection w) |}
     | Some err => Unhandled err
     end, w).
Proof.
  unfold Index.get_products, get_products, DB.queryAll, find_toArray. run_monad.
  by destruct (fault e).
Qed.

(** X2.  GET on the collection answers 200 with all documents in the
    order the store holds them (none for an empty collection); when the
    store fails the handler ends with the store's error and no response,
    there being no [catch] around the [await]. *)
Theorem get_products_answers (req : Request) (e : env) (w : world) :
  (fault e = None →
   Index.get_products req e w
   = (Sent {| status := 200; payload := Documents (collection w) |}, w))
  ∧ (∀ err, fault e = Some err → Index.get_products req e w = (Unhandled err, w)).
Proof.
  rewrite get_products_cases. split.
  - by intros ->.
  - by intros err ->.
Qed.

(** X3.  Neither GET route changes an object or the collection, whatever
    the identifier and whatever the store does. *)
Theorem reads_leave_world (req : Request) (e : env) (w : world) :
  (Index.get_product req e w).2 = w ∧ (Index.get_products req e w).2 = w.
Proof.
  split; [|by rewrite get_products_cases].
  destruct (ObjectId_new (params_id req)) as [o|] eqn:Hid.
  - by rewrite (get_product_cases req o e w Hid).
  - unfold Index.get_product, get_product. run_monad. by rewrite queryById_malformed.
Qed.

(** X4.  POST of a body that passes the rules always answers: 201 with
    the body and the [_id] the driver reports when the insert is
    acknowledged, and 500 "Error inserting product" when the store rejects
    the insert or does not acknowledge it. *)
Theorem post_product_answers (rules : list Middleware) (req : Request) (e : env) (w : world) :
  validationResult (run_all rules (heap w (body req))) = [] →
  (post_product rules req e w).1
  = match insertOne (body req) e w with
    | (Resolved result, _) =>
        if acknowledged result
        then Sent {| status := 201;
                     payload := Document (<["_id" := insertedId result]> (heap w (body req))) |}
        else Sent {| status := 500; payload := Text "Error inserting product" |}
    | (Rejected _, _) => Sent {| status := 500; payload := Text "Error inserting product" |}
    end.
Proof.
  intros Hvalid. unfold post_product, DB.insert. run_monad. rewrite Hvalid. simpl.
  destruct (insertOne (body req) e w) as [[result|err] w1] eqn:Hins; [|done].
  destruct (insert_resolves _ _ _ _ _ Hins) as (_ & _ & _ & Hd & _).
  destruct (acknowledged result); [|done]. simpl.
  by rewrite fn_lookup_insert, <- Hd, insert_insert_eq.
Qed.

(** X5.  With an identifier the constructor refuses, DELETE ends with
    the constructor's error and no response, and so does PUT when the body
    passes the rules; nothing changes.  The rules come first: PUT with a
    body that fails them answers 400 whatever the identifier is. *)
Theorem malformed_id_unanswered (rules : list Middleware) (req : Request) (e : env) (w : world) :
  ObjectId_new (params_id req) = None →
  Index.delete_product req e w = (Unhandled BSONError, w)
  ∧ (validationResult (run_all rules (heap w (body req))) = [] →
     put_product rules req e w = (Unhandled BSONError, w))
  ∧ (validationResult (run_all rules (heap w (body req))) ≠ [] →
     ∃ errs, put_product rules req e w
             = (Sent {| status := 400; payload := Errors errs |}, w)).
Proof.
  intros Hid. split_and!.
  - unfold Index.delete_product, delete_product, DB.delete. run_monad. by rewrite Hid.
  - intros Hvalid. unfold put_product, DB.update. run_monad. by rewrite Hvalid, Hid.
  - intros Herr. eexists. by apply put_product_invalid.
Qed.

(** *** The first document with an identifier, replaced or removed *)

Lemma has_id_spec v (d : gmap string value) : has_id v d = true ↔ d !! "_id" = Some v.
Proof. unfold has_id. apply bool_decide_eq_true. Qed.

Lemma replace_first_length p d' (l : list (gmap string value)) :
  length (replace_first p d' l) = length l.
Proof. induction l as [|d l IH]; simpl; [done|]. destruct (p d); simpl; by rewrite ?IH. Qed.

Lemma find_replace_first p d' (l : list (gmap string value)) old :
  List.find p l = Some old → p d' = true → List.find p (replace_first p d' l) = Some d'.
Proof.
  intros Hfind Hd'. induction l as [|d l IH]; simpl in *; [done|].
  destruct (p d) eqn:Hd; simpl; [by rewrite Hd'|]. rewrite Hd. by apply IH.
Qed.

Lemma find_replace_first_other v v' d' (l : list (gmap string value)) :
  v' ≠ v → has_id v d' = true →
  List.find (has_id v') (replace_first (has_id v) d' l) = List.find (has_id v') l.
Proof.
  intros Hne Hd'. induction l as [|d l IH]; simpl; [done|].
  destruct (has_id v d) eqn:Hd; simpl.
  - assert (has_id v' d' = false) as ->.
    { apply not_true_iff_false. rewrite has_id_spec. apply has_id_spec in Hd'. congruence. }
    assert (has_id v' d = false) as ->; [|done].
    apply not_true_iff_false. rewrite has_id_spec. apply has_id_spec in Hd. congruence.
  - by rewrite IH.
Qed.

Lemma find_none_unique v (l : list (gmap string value)) :
  Some v ∉ (λ d, d !! "_id") <$> l → List.find (has_id v) l = None.
Proof.
  intros Hnot. destruct (List.find _ _) as [d|] eqn:Hfind; [|done].
  apply find_some in Hfind as [Hin Hd]. apply has_id_spec in Hd.
  exfalso. apply Hnot. rewrite <- Hd.
  apply (list_elem_of_fmap_2 (λ d, d !! "_id")). by apply list_elem_of_In.
Qed.

Lemma find_remove_first_unique v (l : list (gmap string value)) :
  unique_ids l → List.find (has_id v) (remove_first (has_id v) l) = None.
Proof.
  unfold unique_ids. induction l as [|d l IH]; [done|]. rewrite fmap_cons.
  intros [Hd Hl]%NoDup_cons. cbn [remove_first]. destruct (has_id v d) eqn:Hv; simpl.
  - apply has_id_spec in Hv. rewrite Hv in Hd. by apply find_none_unique.
  - rewrite Hv. by apply IH.
Qed.

(** *** [update] and the PUT route *)

Lemma update_unfold id o product e w :
  ObjectId_new id = Some o →
  DB.update id product e w =
    let '(p, w1) := replaceOne o product e (coerced o product w) in
    (Normal match p with
            | Resolved result =>
                if bool_decide (modifiedCount result = 1) || bool_decide (matchedCount result = 1)
                then Resolved (JsRef product)
                else Rejected (JsError "Error updating product")
            | Rejected err => Rejected err
            end, w1).
Proof.
  intros Hid. unfold DB.update, coerced. run_monad. rewrite Hid.
  destruct (heap w product !! "_id") as [[[]|]|]; simpl;
    (destruct (replaceOne _ _ _ _) as [[result|err] w1]; simpl; [|done];
     by destruct (_ || _)).
Qed.

Lemma replaceOne_heap o product e w : heap (replaceOne o product e w).2 = heap w.
Proof.
  unfold replaceOne. destruct (fault e); [done|].
  destruct (List.find _ _); [|done].
  destruct (heap w product !! "_id"); [|done]. by destruct (decide _).
Qed.

Lemma coerced_collection o product w : collection (coerced o product w) = collection w.
Proof. unfold coerced. by destruct (heap w product !! "_id") as [[[]|]|]. Qed.

Lemma coerced_other o product w l : l ≠ product → heap (coerced o product w) l = heap w l.
Proof.
  intros Hl. unfold coerced. destruct (heap w product !! "_id") as [[[]|]|]; try done.
  simpl. by rewrite fn_lookup_insert_ne.
Qed.

(** X6.  [update] touches nothing but the [_id] of the product it is
    given: when that [_id] is a string, whatever it says, it becomes the
    identifier of the [id] argument, and otherwise the product stays as it
    is; no other object changes.  This holds whether or not the store then
    accepts the write. *)
Theorem update_sets_string_id (id : string) (o : ObjectId) (product : loc) (e : env) (w : world) :
  ObjectId_new id = Some o →
  let w' := (DB.update id product e w).2 in
  heap w' product
  = match heap w product !! "_id" with
    | Some (VJson (JStr _)) => <["_id" := VObjectId o]> (heap w product)
    | _ => heap w product
    end
  ∧ (∀ l, l ≠ product → heap w' l = heap w l).
Proof.
  intros Hid w'. subst w'. rewrite (update_unfold id o product e w Hid).
  pose proof (replaceOne_heap o product e (coerced o product w)) as Hheap.
  destruct (replaceOne _ _ _ _) as [p w1]. simpl in *. rewrite Hheap. split.
  - unfold coerced. destruct (heap w product !! "_id") as [[[]|]|]; try done.
    simpl. by rewrite fn_lookup_insert.
  - intros l Hl. by apply coerced_other.
Qed.

Lemma put_product_valid_unfold rules req o e w :
  validationResult (run_all rules (heap w (body req))) = [] →
  ObjectId_new (params_id req) = Some o →
  heap w (body req) !! "_id" = None →
  fault e = None →
  put_product rules req e w =
    match List.find (has_id (VObjectId o)) (collection w) with
    | Some _ =>
        (Sent {| status := 200; payload := Document (heap w (body req)) |},
         World (heap w)
           (replace_first (has_id (VObjectId o))
              (<["_id" := VObjectId o]> (heap w (body req))) (collection w)))
    | None => (Sent {| status := 500; payload := Text "Error updating product" |}, w)
    end.
Proof.
  intros Hvalid Hid Hnone Hup. unfold put_product. run_monad. rewrite Hvalid. simpl.
  rewrite (update_unfold _ o _ e w Hid). unfold coerced, replaceOne.
  rewrite Hnone, Hup. destruct (List.find _ _); [|done]. rewrite Hnone.
  by destruct (decide _).
Qed.

(** X7.  PUT of a body that passes the rules of [index.js], on a
    well-formed identifier and a store that answers: the body has no
    [_id]; when a document carries the identifier the answer is 200 with
    the body as it was sent and the first such document is replaced by the
    body under that identifier; when none carries it the answer is 500
    "Error updating product" and nothing changes. *)
Theorem put_product_answers (req : Request) (o : ObjectId) (e : env) (w : world) :
  validationResult (run_all Index.productValidationRules (heap w (body req))) = [] →
  ObjectId_new (params_id req) = Some o →
  fault e = None →
  heap w (body req) !! "_id" = None
  ∧ Index.put_product req e w =
      match List.find (has_id (VObjectId o)) (collection w) with
      | Some _ =>
          (Sent {| status := 200; payload := Document (heap w (body req)) |},
           World (heap w)
             (replace_first (has_id (VObjectId o))
                (<["_id" := VObjectId o]> (heap w (body req))) (collection w)))
      | None => (Sent {| status := 500; payload := Text "Error updating product" |}, w)
      end.
Proof.
  intros Hvalid Hid Hup.
  assert (heap w (body req) !! "_id" = None) as Hnone.
  { apply index_valid_dom; [done|]. by apply (bool_decide_unpack _). }
  split; [done|]. by apply put_product_valid_unfold.
Qed.

(** X8.  After a PUT answered 200, GET on the same identifier answers
    200 with the body of the PUT under that identifier. *)
Theorem put_then_get (req : Request) (o : ObjectId) (e1 e2 : env) (w : world)
    (old : gmap string value) :
  validationResult (run_all Index.productValidationRules (heap w (body req))) = [] →
  ObjectId_new (params_id req) = Some o →
  fault e1 = None →
  fault e2 = None →
  List.find (has_id (VObjectId o)) (collection w) = Some old →
  ∃ w1,
    Index.put_product req e1 w
    = (Sent {| status := 200; payload := Document (heap w (body req)) |}, w1)
    ∧ Index.get_product req e2 w1
      = (Sent {| status := 200;
                 payload := Document (<["_id" := VObjectId o]> (heap w (body req))) |}, w1).
Proof.
  intros Hvalid Hid Hup1 Hup2 Hold.
  assert (heap w (body req) !! "_id" = None) as Hnone.
  { apply index_valid_dom; [done|]. by apply (bool_decide_unpack _). }
  pose proof (put_product_valid_unfold _ req o e1 w Hvalid Hid Hnone Hup1) as Hput.
  rewrite Hold in Hput. eexists. split; [exact Hput|].
  rewrite (get_product_cases req o e2 _ Hid), Hup2. simpl.
  rewrite (find_replace_first _ _ _ old); [done|done|].
  apply has_id_spec. by rewrite lookup_insert_eq.
Qed.

(** What [replaceOne] leaves in the collection: the collection itself,
    or the collection with the first document of this identifier replaced
    by one of the same identifier. *)
Lemma replaceOne_collection o product e w :
  collection (replaceOne o product e w).2 = collection w
  ∨ ∃ d', has_id (VObjectId o) d' = true
          ∧ collection (replaceOne o product e w).2
            = replace_first (has_id (VObjectId o)) d' (collection w).
Proof.
  unfold replaceOne. destruct (fault e); [by left|].
  destruct (List.find _ _); [|by left].
  destruct (heap w product !! "_id") as [v|] eqn:Hid.
  - destruct (decide (v = VObjectId o)) as [->|]; [|by left].
    right. eexists. split; [|done]. by apply has_id_spec.
  - right. eexists. split; [|done]. apply has_id_spec. by rewrite lookup_insert_eq.
Qed.

Lemma put_product_collection rules req e w :
  collection (put_product rules req e w).2 = collection w
  ∨ ∃ o d', ObjectId_new (params_id req) = Some o
            ∧ has_id (VObjectId o) d' = true
            ∧ collection (put_product rules req e w).2
              = replace_first (has_id (VObjectId o)) d' (collection w).
Proof.
  unfold put_product. run_monad.
  destruct (negb _); [by left|].
  destruct (ObjectId_new (params_id req)) as [o|] eqn:Hid.
  - rewrite (update_unfold _ o _ e w Hid).
    pose proof (replaceOne_collection o (body req) e (coerced o (body req) w)) as Hcoll.
    rewrite coerced_collection in Hcoll.
    destruct (replaceOne _ _ _ _) as [[result|err] w1]; simpl in *.
    + destruct (_ || _); simpl; (destruct Hcoll as [?|(d' & ? & ?)]; [by left|right; eauto]).
    + destruct Hcoll as [?|(d' & ? & ?)]; [by left|right; eauto].
  - unfold DB.update. rewrite Hid. by left.
Qed.

(** X9.  PUT never adds or removes a document, and what the collection
    holds under any other identifier is as before, whatever the rules, the
    body and the store. *)
Theorem put_touches_one (rules : list Middleware) (req : Request) (e : env) (w : world) :
  let w' := (put_product rules req e w).2 in
  length (collection w') = length (collection w)
  ∧ ∀ o o', ObjectId_new (params_id req) = Some o → o' ≠ o →
      List.find (has_id (VObjectId o')) (collection w')
      = List.find (has_id (VObjectId o')) (collection w).
Proof.
  intros w'. subst w'.
  destruct (put_product_collection rules req e w) as [->|(o & d' & Hid & Hd' & ->)].
  - done.
  - split; [apply replace_first_length|].
    intros o0 o' Hid0 Hne. rewrite Hid in Hid0. injection Hid0 as <-.
    apply find_replace_first_other; [congruence|done].
Qed.

(** X10.  On a collection without duplicate identifiers and a store
    that answers, DELETE answers 200 or 404, and GET on the same identifier
    afterwards answers 404. *)
Theorem delete_then_get (req : Request) (o : ObjectId) (e1 e2 : env) (w : world) :
  unique_ids (collection w) →
  ObjectId_new (params_id req) = Some o →
  fault e1 = None → ok e1 = true →
  fault e2 = None →
  ∃ r w1,
    Index.delete_product req e1 w = (Sent r, w1)
    ∧ (status r = 200 ∨ status r = 404)
    ∧ Index.get_product req e2 w1
      = (Sent {| status := 404; payload := Text "Product not found" |}, w1).
Proof.
  intros Hunique Hid Hup1 Hok Hup2.
  unfold Index.delete_product, delete_product. run_monad.
  rewrite (delete_cases _ o e1 w Hid), Hup1, Hok.
  destruct (List.find _ _) as [d|] eqn:Hfind; simpl.
  - eexists _, _. split; [done|]. split; [by left|].
    rewrite (get_product_cases req o e2 _ Hid), Hup2. simpl.
    by rewrite find_remove_first_unique.
  - eexists _, _. split; [done|]. split; [by right|].
    by rewrite (get_product_cases req o e2 _ Hid), Hup2, Hfind.
Qed.

(** X12.  A response with status 500 carries the fixed text of its
    route and nothing of the error that caused it. *)
Theorem errors_not_leaked (rules : list Middleware) (req : Request) (e : env) (w w' : world)
    (r : Response) :
  status r = 500 →
  (Index.get_product req e w = (Sent r, w') → payload r = Text "Error querying product")
  ∧ (post_product rules req e w = (Sent r, w') → payload r = Text "Error inserting product")
  ∧ (put_product rules req e w = (Sent r, w') → payload r = Text "Error updating product")
  ∧ (Index.delete_product req e w = (Sent r, w') → payload r = Text "Error deleting product").
Proof.
  intros Hstatus. split_and!.
  - destruct (ObjectId_new (params_id req)) as [o|] eqn:Hid.
    + rewrite (get_product_cases req o e w Hid).
      destruct (fault e); [|destruct (List.find _ _)]; intros [= <- <-]; done.
    + unfold Index.get_product, get_product. run_monad. by rewrite queryById_malformed.
  - unfold post_product, DB.insert. run_monad.
    destruct (negb _); [intros [= <- <-]; done|].
    destruct (insertOne _ _ _) as [[result|err] w1]; simpl.
    + destruct (acknowledged result); simpl; intros [= <- <-]; done.
    + intros [= <- <-]; done.
  - unfold put_product. run_monad.
    destruct (negb _); [intros [= <- <-]; done|].
    destruct (update_cases (params_id req) (body req) e w)
      as [[w1 ->]|[(err & w1 & ->)|(err & ->)]]; simpl; [| |done].
    + intros [= <- <-]; done.
    + intros [= <- <-]; done.
  - unfold Index.delete_product, delete_product. run_monad.
    destruct (ObjectId_new (params_id req)) as [o|] eqn:Hid.
    + rewrite (delete_cases _ o e w Hid).
      destruct (fault e); [|destruct (ok e); [destruct (List.find _ _)|]];
        simpl; intros [= <- <-]; done.
    + unfold DB.delete. by rewrite Hid.
Qed.

(** X13.  After a POST answered 201, GET on the collection answers 200
    with the documents held before followed by the created product. *)
Theorem post_then_list (req req' : Request) (e1 e2 : env) (w : world) :
  validationResult (run_all Index.productValidationRules (heap w (body req))) = [] →
  fault e1 = None →
  ack e1 = true →
  existsb (has_id (VObjectId (createPk e1))) (collection w) = false →
  fault e2 = None →
  ∃ created w1,
    Index.post_product req e1 w = (Sent {| status := 201; payload := Document created |}, w1)
    ∧ Index.get_products req' e2 w1
      = (Sent {| status := 200; payload := Documents (collection w ++ [created]) |}, w1).
Proof.
  intros Hvalid Hup Hack Hpk Hup2.
  assert (heap w (body req) !! "_id" = None) as Hfresh.
  { apply index_valid_dom; [done|]. by apply (bool_decide_unpack _). }
  eexists _, _. split.
  - unfold Index.post_product, post_product, DB.insert. run_monad.
    rewrite Hvalid. simpl. rewrite insertOne_fresh by done. simpl. rewrite Hack. simpl.
    by rewrite !fn_lookup_insert, insert_insert_eq.
  - by rewrite get_products_cases, Hup2.
Qed.

(** *** What the rules let through *)

(** X14.  Under the rules of both route files, a body whose [name], or
    whose [description], is missing or is not a string is answered 400 on
    POST and on PUT, with the error of that field. *)
Theorem text_fields_required (req : Request) (e : env) (w : world) (field message : string) :
  (field, message) ∈ [("name", "Name must be a string");
                      ("description", "Description must be a string")] →
  (∀ s, heap w (body req) !! field ≠ Some (VJson (JStr s))) →
  ∃ errs errs',
    FieldValidationError (heap w (body req) !! field) message field "body" ∈ errs
    ∧ FieldValidationError (heap w (body req) !! field) message field "body" ∈ errs'
    ∧ Index.post_product req e w = (Sent {| status := 400; payload := Errors errs |}, w)
    ∧ Index.put_product req e w = (Sent {| status := 400; payload := Errors errs |}, w)
    ∧ Part000.post_product req e w = (Sent {| status := 400; payload := Errors errs' |}, w)
    ∧ Part000.put_product req e w = (Sent {| status := 400; payload := Errors errs' |}, w).
Proof.
  intros Hfield Hnot. set (b := heap w (body req)) in *.
  assert (b !! field ∈ rejected IsString (b !! field)) as Hrej.
  { simpl. destruct (b !! field) as [[[]|]|] eqn:Hb; try apply list_elem_of_here.
    by destruct (Hnot s). }
  assert (∀ rules, Chain (withMessage message (isString (check field))) ∈ rules →
            FieldValidationError (b !! field) message field "body"
            ∈ validationResult (run_all rules b)) as Hrep.
  { intros rules Hin.
    apply (rejected_field_reported rules _ IsString message (b !! field) b Hin);
      [apply list_elem_of_here|exact Hrej]. }
  assert (Chain (withMessage message (isString (check field))) ∈ Index.productValidationRules
          ∧ Chain (withMessage message (isString (check field)))
            ∈ Part000.productValidationRules) as [Hin Hin'].
  { apply elem_of_cons in Hfield as [[= -> ->]|Hfield].
    - split; apply list_elem_of_here.
    - apply list_elem_of_singleton in Hfield as [= -> ->].
      split; apply list_elem_of_further, list_elem_of_here. }
  destruct (reported_is_400 Index.productValidationRules req e w _ (Hrep _ Hin))
    as (errs & ? & ? & ?).
  destruct (reported_is_400 Part000.productValidationRules req e w _ (Hrep _ Hin'))
    as (errs' & ? & ? & ?).
  by exists errs, errs'.
Qed.

Lemma unknown_fields_empty known (b : gmap string value) :
  unknown_fields known b = ∅ ↔ ∀ k, is_Some (b !! k) → k ∈ known.
Proof.
  split.
  - intros Hempty k Hk. destruct (decide (k ∈ known)) as [|Hnot]; [done|].
    assert (k ∈ unknown_fields known b) as Hin
      by (apply unknown_fields_elem; split; [by apply elem_of_dom|done]).
    rewrite Hempty in Hin. by apply not_elem_of_empty in Hin.
  - intros Hall. apply set_eq. intros k. rewrite unknown_fields_elem, elem_of_dom.
    split; [|by intros ?%not_elem_of_empty]. intros [Hk Hnot]. destruct (Hnot (Hall k Hk)).
Qed.

(** X15.  A body passes the rules of [index.js] when its name and
    description are strings, its price a number of at least 0, its stock a
    whole number from 0 up to, not including, 1e21, its [image_url] a string
    the URL validator accepts, and it has no other field. *)
Theorem well_formed_body_accepted (b : gmap string value) (n d u : string) (x y : Qc) :
  b !! "name" = Some (VJson (JStr n)) →
  b !! "description" = Some (VJson (JStr d)) →
  b !! "price" = Some (VJson (JNum x)) → (0 ≤ x)%Qc →
  b !! "stock" = Some (VJson (JNum y)) →
  Qden y = 1%positive → (0 ≤ Qnum y < 10 ^ 21)%Z →
  b !! "image_url" = Some (VJson (JStr u)) →
  validator_isURL (Chars u) url_options = true →
  (∀ k, is_Some (b !! k) → k ∈ recognised) →
  validationResult (run_all Index.productValidationRules b) = [].
Proof.
  intros Hn Hd Hx Hx0 Hy Hden Hy0 Hu Hurl Hkeys.
  rewrite index_result. unfold field_errors. rewrite Hn, Hd, Hx, Hy, Hu. simpl.
  rewrite (bool_decide_true (Q2Qc 0 ≤ x)%Qc) by done.
  unfold prints_as_integer.
  rewrite (bool_decide_true (Qden y = 1%positive)) by done.
  rewrite (bool_decide_true (Z.abs (Qnum y) < 10 ^ 21)%Z) by lia.
  rewrite (bool_decide_true (0 ≤ Qnum y)%Z) by lia.
  fold url_options. rewrite Hurl. simpl.
  by rewrite bool_decide_true by by apply unknown_fields_empty.
Qed.

(** X16.  A body that passes the rules of [index.js] has a string for
    name and for description, no field besides the five recognised ones,
    a price of at least 0 when the price is a number, and a whole stock
    from 0 up to, not including, 1e21 when the stock is a number. *)
Theorem accepted_body_shape (b : gmap string value) :
  validationResult (run_all Index.productValidationRules b) = [] →
  (∃ n, b !! "name" = Some (VJson (JStr n)))
  ∧ (∃ d, b !! "description" = Some (VJson (JStr d)))
  ∧ (∀ x, b !! "price" = Some (VJson (JNum x)) → (0 ≤ x)%Qc)
  ∧ (∀ y, b !! "stock" = Some (VJson (JNum y)) →
       Qden y = 1%positive ∧ (0 ≤ Qnum y < 10 ^ 21)%Z)
  ∧ (∀ k, is_Some (b !! k) → k ∈ recognised).
Proof.
  intros Hvalid. pose proof (index_valid_no_unknown b Hvalid) as Hunknown.
  rewrite index_result in Hvalid.
  repeat (apply app_nil in Hvalid as [? Hvalid]). unfold field_errors in *.
  split_and!.
  - destruct (b !! "name") as [[[]|]|]; try done. by eexists.
  - destruct (b !! "description") as [[[]|]|]; try done. by eexists.
  - intros x Hx. rewrite Hx in *. simpl in *.
    destruct (bool_decide (Q2Qc 0 ≤ x)%Qc) eqn:Hle; [|done].
    by apply bool_decide_eq_true in Hle.
  - intros y Hy. rewrite Hy in *. simpl in *. unfold prints_as_integer in *.
    destruct (bool_decide (Qden y = 1%positive)) eqn:Hden; [|done].
    destruct (bool_decide (Z.abs (Qnum y) < 10 ^ 21)%Z) eqn:Hsize; [|done].
    destruct (bool_decide (0 ≤ Qnum y)%Z) eqn:Hsign; [|done].
    apply bool_decide_eq_true in Hden, Hsize, Hsign. split; [done|lia].
  - by apply unknown_fields_empty.
Qed.

(** X17.  A body that passes the rules of [index.js] passes the rules
    of [part_000] once its [image_url] is taken out. *)
Theorem accepted_without_image_url (b : gmap string value) :
  validationResult (run_all Index.productValidationRules b) = [] →
  validationResult (run_all Part000.productValidationRules (delete "image_url" b)) = [].
Proof.
  intros Hvalid. pose proof (index_valid_no_unknown b Hvalid) as Hunknown.
  rewrite index_result in Hvalid. rewrite part000_result.
  repeat (apply app_nil in Hvalid as [? Hvalid]). unfold field_errors in *.
  rewrite !lookup_delete_ne by done.
  repeat (apply app_nil; split); try done.
  rewrite bool_decide_true; [done|].
  apply unknown_fields_empty. intros k Hk.
  destruct (decide (k = "image_url")) as [->|Hne]; [by rewrite lookup_delete_eq in Hk; destruct Hk|].
  rewrite lookup_delete_ne in Hk by done.
  pose proof (proj1 (unknown_fields_empty recognised b) Hunknown k Hk) as Hin.
  unfold recognised in Hin. rewrite !elem_of_cons in Hin. rewrite !elem_of_cons.
  tauto.
Qed.

(** *** What the routes store *)

Lemma product_shaped_insert_id v (b : gmap string value) :
  (∀ k, is_Some (b !! k) → k ∈ recognised) → product_shaped (<["_id" := v]> b).
Proof.
  intros Hb k Hk. destruct (decide (k = "_id")) as [|Hne]; [by left|].
  right. apply Hb. by rewrite lookup_insert_ne in Hk.
Qed.

Lemma Forall_replace_first (P : gmap string value → Prop) p d' l :
  Forall P l → P d' → Forall P (replace_first p d' l).
Proof.
  intros Hl Hd'. induction Hl as [|d l Hd Hl IH]; simpl; [done|].
  destruct (p d); by constructor.
Qed.

Lemma Forall_remove_first (P : gmap string value → Prop) p l :
  Forall P l → Forall P (remove_first p l).
Proof.
  intros Hl. induction Hl as [|d l Hd Hl IH]; simpl; [done|].
  destruct (p d); [done|by constructor].
Qed.

(** X18.  Under the rules of [index.js], when every document of the
    collection has no field besides [_id] and the five recognised ones,
    this is still so after POST, PUT and DELETE. *)
Theorem stored_products_shaped (req : Request) (e : env) (w : world) :
  Forall product_shaped (collection w) →
  Forall product_shaped (collection (Index.post_product req e w).2)
  ∧ Forall product_shaped (collection (Index.put_product req e w).2)
  ∧ Forall product_shaped (collection (Index.delete_product req e w).2).
Proof.
  intros Hshaped. set (b := heap w (body req)).
  destruct (decide (validationResult (run_all Index.productValidationRules b) = []))
    as [Hvalid|Herr].
  - pose proof (proj1 (unknown_fields_empty recognised b)
                  (index_valid_no_unknown b Hvalid)) as Hkeys.
    assert (b !! "_id" = None) as Hnone
      by (apply index_valid_dom; [done|by apply (bool_decide_unpack _)]).
    split_and!.
    + unfold Index.post_product, post_product, DB.insert. run_monad. fold b.
      rewrite Hvalid. simpl.
      destruct (insertOne (body req) e w) as [[result|err] w1] eqn:Hins.
      * destruct (insert_resolves _ _ _ _ _ Hins) as (_ & _ & _ & Hd & _ & _ & Hcoll).
        assert (Forall product_shaped (collection w1)) as Hw1.
        { rewrite Hcoll, <- Hd. apply Forall_app. split; [done|].
          apply Forall_singleton. by apply product_shaped_insert_id. }
        by destruct (acknowledged result).
      * simpl. unfold insertOne in Hins. destruct (fault e); [by injection Hins as _ <-|].
        destruct (existsb _ _); [by injection Hins as _ <-|done].
    + destruct (ObjectId_new (params_id req)) as [o|] eqn:Hid.
      * destruct (fault e) as [err|] eqn:Hup.
        -- unfold Index.put_product, put_product. run_monad. fold b. rewrite Hvalid. simpl.
           rewrite (update_unfold _ o _ e w Hid). unfold coerced, replaceOne. fold b.
           by rewrite Hnone, Hup.
        -- unfold Index.put_product.
           rewrite (put_product_valid_unfold _ req o e w Hvalid Hid Hnone Hup).
           destruct (List.find _ _); [|done]. simpl.
           apply Forall_replace_first; [done|]. by apply product_shaped_insert_id.
      * unfold Index.put_product, put_product, DB.update. run_monad. fold b.
        by rewrite Hvalid, Hid.
    + unfold Index.delete_product, delete_product. run_monad.
      destruct (ObjectId_new (params_id req)) as [o|] eqn:Hid.
      * rewrite (delete_cases _ o e w Hid). destruct (fault e); [done|].
        destruct (ok e); [|done]. destruct (List.find _ _); [|done].
        simpl. by apply Forall_remove_first.
      * unfold DB.delete. by rewrite Hid.
  - unfold Index.post_product, Index.put_product.
    rewrite post_product_invalid, put_product_invalid by done. split_and!; [done|done|].
    unfold Index.delete_product, delete_product. run_monad.
    destruct (ObjectId_new (params_id req)) as [o|] eqn:Hid.
    + rewrite (delete_cases _ o e w Hid). destruct (fault e); [done|].
      destruct (ok e); [|done]. destruct (List.find _ _); [|done].
      simpl. by apply Forall_remove_first.
    + unfold DB.delete. by rewrite Hid.
Qed.

End MoreRoutes.

(** ** More statements on concrete requests *)

Section MoreRuns.
Import Validator Router Sample.

(** X1 on a collection that holds the identifier, and on an empty one. *)
Lemma get_product_answers_witness :
  ObjectId_new (params_id (request id1)) = Some oid1
  ∧ Index.get_product (request id1) up (world_of krabs [stored])
    = (Sent {| status := 200; payload := Document stored |}, world_of krabs [stored])
  ∧ Index.get_product (request id1) up (world_of krabs [])
    = (Sent {| status := 404; payload := Text "Product not found" |}, world_of krabs []).
Proof.
  assert (ObjectId_new (params_id (request id1)) = Some oid1) as Hid by reflexivity.
  split_and!; [exact Hid| |].
  - exact (proj1 (proj1 (proj2 (get_product_answers (request id1) oid1 up
                                   (world_of krabs [stored]) Hid)) stored eq_refl eq_refl)).
  - apply (proj2 (proj2 (get_product_answers (request id1) oid1 up (world_of krabs []) Hid)));
      [reflexivity|]. intros d Hd. by apply not_elem_of_nil in Hd.
Defined.

(** X4 on the sample product. *)
Lemma post_product_answers_witness :
  validationResult (run_all Index.productValidationRules
                      (heap (world_of krabs []) (body (request id1)))) = []
  ∧ (Index.post_product (request id1) up (world_of krabs [])).1
    = Sent {| status := 201; payload := Document stored |}.
Proof.
  split; [reflexivity|].
  exact (post_product_answers Index.productValidationRules (request id1) up
           (world_of krabs []) eq_refl).
Defined.

(** X5 on the identifier [abc]. *)
Lemma malformed_id_unanswered_witness :
  ObjectId_new (params_id (request "abc")) = None
  ∧ Index.delete_product (request "abc") up (world_of krabs [stored])
    = (Unhandled BSONError, world_of krabs [stored])
  ∧ Index.put_product (request "abc") up (world_of krabs [stored])
    = (Unhandled BSONError, world_of krabs [stored]).
Proof.
  assert (ObjectId_new (params_id (request "abc")) = None) as Hid by reflexivity.
  destruct (malformed_id_unanswered Index.productValidationRules (request "abc") up
              (world_of krabs [stored]) Hid) as (Hdelete & Hput & _).
  split_and!; [exact Hid|exact Hdelete|exact (Hput eq_refl)].
Defined.

(** X6 on a product whose [_id] is the string [mine]. *)
Lemma update_sets_string_id_witness :
  ObjectId_new id1 = Some oid1
  ∧ heap (DB.update id1 0 up (world_of (<["_id" := VJson (JStr "mine")]> krabs) [stored])).2 0
    = stored.
Proof.
  assert (ObjectId_new id1 = Some oid1) as Hid by reflexivity.
  split; [exact Hid|].
  exact (proj1 (update_sets_string_id id1 oid1 0 up
                  (world_of (<["_id" := VJson (JStr "mine")]> krabs) [stored]) Hid)).
Defined.

(** X7 on a collection that holds the sample product with another stock. *)
Lemma put_product_answers_witness :
  validationResult (run_all Index.productValidationRules
                      (heap (world_of krabs [<["stock" := number 0]> stored])
                         (body (request id1)))) = []
  ∧ ObjectId_new (params_id (request id1)) = Some oid1
  ∧ fault up = None
  ∧ Index.put_product (request id1) up (world_of krabs [<["stock" := number 0]> stored])
    = (Sent {| status := 200; payload := Document krabs |}, world_of krabs [stored]).
Proof.
  split_and!; [reflexivity|reflexivity|reflexivity|].
  exact (proj2 (put_product_answers (request id1) oid1 up
                  (world_of krabs [<["stock" := number 0]> stored]) eq_refl eq_refl eq_refl)).
Defined.

(** X8 on the same collection. *)
Lemma put_then_get_witness :
  List.find (has_id (VObjectId oid1)) (collection (world_of krabs [<["stock" := number 0]> stored]))
  = Some (<["stock" := number 0]> stored)
  ∧ ∃ w1,
      Index.put_product (request id1) up (world_of krabs [<["stock" := number 0]> stored])
      = (Sent {| status := 200; payload := Document krabs |}, w1)
      ∧ Index.get_product (request id1) up w1
        = (Sent {| status := 200; payload := Document stored |}, w1).
Proof.
  split; [reflexivity|].
  exact (put_then_get (request id1) oid1 up up (world_of krabs [<["stock" := number 0]> stored])
           (<["stock" := number 0]> stored) eq_refl eq_refl eq_refl eq_refl eq_refl).
Defined.

Lemma unique_ids_stored : unique_ids [stored].
Proof. unfold unique_ids. apply NoDup_singleton. Qed.

(** X10 on a collection that holds the identifier. *)
Lemma delete_then_get_witness :
  unique_ids (collection (world_of krabs [stored]))
  ∧ ∃ r w1,
      Index.delete_product (request id1) up (world_of krabs [stored]) = (Sent r, w1)
      ∧ (status r = 200 ∨ status r = 404)
      ∧ Index.get_product (request id1) up w1
        = (Sent {| status := 404; payload := Text "Product not found" |}, w1).
Proof.
  split; [exact unique_ids_stored|].
  exact (delete_then_get (request id1) oid1 up up (world_of krabs [stored])
           unique_ids_stored eq_refl eq_refl eq_refl eq_refl).
Defined.

(** X12 on the PUT of the sample product on an empty collection. *)
Lemma errors_not_leaked_witness :
  status {| status := 500; payload := Text "Error updating product" |} = 500
  ∧ Index.put_product (request id1) up (world_of krabs [])
    = (Sent {| status := 500; payload := Text "Error updating product" |}, world_of krabs [])
  ∧ payload {| status := 500; payload := Text "Error updating product" |}
    = Text "Error updating product".
Proof.
  split_and!; [reflexivity|reflexivity|].
  exact (proj1 (proj2 (proj2 (errors_not_leaked Index.productValidationRules (request id1) up
                                (world_of krabs []) (world_of krabs [])
                                {| status := 500; payload := Text "Error updating product" |}
                                eq_refl))) eq_refl).
Defined.

(** X13 on the sample product and an empty collection. *)
Lemma post_then_list_witness :
  validationResult (run_all Index.productValidationRules
                      (heap (world_of krabs []) (body (request id1)))) = []
  ∧ existsb (has_id (VObjectId (createPk up))) (collection (world_of krabs [])) = false
  ∧ ∃ created w1,
      Index.post_product (request id1) up (world_of krabs [])
      = (Sent {| status := 201; payload := Document created |}, w1)
      ∧ Index.get_products (request id1) up w1
        = (Sent {| status := 200;
                   payload := Documents (collection (world_of krabs []) ++ [created]) |}, w1).
Proof.
  split_and!; [reflexivity|reflexivity|].
  exact (post_then_list (request id1) (request id1) up up (world_of krabs [])
           eq_refl eq_refl eq_refl eq_refl eq_refl).
Defined.

(** X14 on the sample product without its name. *)
Lemma text_fields_required_witness :
  ("name", "Name must be a string")
    ∈ [("name", "Name must be a string"); ("description", "Description must be a string")]
  ∧ (∀ s, heap (world_of (delete "name" krabs) []) (body (request id1)) !! "name"
          ≠ Some (VJson (JStr s)))
  ∧ ∃ errs errs',
      FieldValidationError None "Name must be a string" "name" "body" ∈ errs
      ∧ FieldValidationError None "Name must be a string" "name" "body" ∈ errs'
      ∧ Index.post_product (request id1) up (world_of (delete "name" krabs) [])
        = (Sent {| status := 400; payload := Errors errs |}, world_of (delete "name" krabs) [])
      ∧ Index.put_product (request id1) up (world_of (delete "name" krabs) [])
        = (Sent {| status := 400; payload := Errors errs |}, world_of (delete "name" krabs) [])
      ∧ Part000.post_product (request id1) up (world_of (delete "name" krabs) [])
        = (Sent {| status := 400; payload := Errors errs' |}, world_of (delete "name" krabs) [])
      ∧ Part000.put_product (request id1) up (world_of (delete "name" krabs) [])
        = (Sent {| status := 400; payload := Errors errs' |}, world_of (delete "name" krabs) []).
Proof.
  assert (("name", "Name must be a string")
            ∈ [("name", "Name must be a string");
               ("description", "Description must be a string")]) as Hfield
    by apply list_elem_of_here.
  assert (∀ s, heap (world_of (delete "name" krabs) []) (body (request id1)) !! "name"
               ≠ Some (VJson (JStr s))) as Hnot by (intros s; discriminate).
  split_and!; [exact Hfield|exact Hnot|].
  exact (text_fields_required (request id1) up (world_of (delete "name" krabs) [])
           "name" "Name must be a string" Hfield Hnot).
Defined.

Lemma krabs_keys : ∀ k, is_Some (krabs !! k) → k ∈ recognised.
Proof. apply unknown_fields_empty, index_valid_no_unknown. reflexivity. Qed.

(** X15 on the sample product. *)
Lemma well_formed_body_accepted_witness :
  (0 ≤ Q2Qc (33 # 2))%Qc
  ∧ (0 ≤ Qnum (Q2Qc 5) < 10 ^ 21)%Z
  ∧ validator_isURL (Chars "https://example.com") url_options = true
  ∧ validationResult (run_all Index.productValidationRules krabs) = [].
Proof.
  assert (0 ≤ Q2Qc (33 # 2))%Qc as Hprice by (intros Hgt; discriminate Hgt).
  assert (0 ≤ Qnum (Q2Qc 5) < 10 ^ 21)%Z as Hstock by (simpl; lia).
  split; [exact Hprice|]. split; [exact Hstock|]. split; [reflexivity|].
  exact (well_formed_body_accepted krabs "Mr. Krabs" "Geiziger Restaurantbesitzer"
           "https://example.com" (Q2Qc (33 # 2)) (Q2Qc 5)
           eq_refl eq_refl eq_refl Hprice eq_refl eq_refl Hstock eq_refl eq_refl krabs_keys).
Defined.

(** X16 on the sample product. *)
Lemma accepted_body_shape_witness :
  validationResult (run_all Index.productValidationRules krabs) = []
  ∧ (∃ n, krabs !! "name" = Some (VJson (JStr n)))
  ∧ (∀ k, is_Some (krabs !! k) → k ∈ recognised).
Proof.
  assert (validationResult (run_all Index.productValidationRules krabs) = []) as Hvalid
    by reflexivity.
  split; [exact Hvalid|].
  destruct (accepted_body_shape krabs Hvalid) as (Hname & _ & _ & _ & Hkeys).
  split; [exact Hname|exact Hkeys].
Defined.

(** X17 on the sample product. *)
Lemma accepted_without_image_url_witness :
  validationResult (run_all Index.productValidationRules krabs) = []
  ∧ validationResult (run_all Part000.productValidationRules (delete "image_url" krabs)) = [].
Proof.
  assert (validationResult (run_all Index.productValidationRules krabs) = []) as Hvalid
    by reflexivity.
  split; [exact Hvalid|]. exact (accepted_without_image_url krabs Hvalid).
Defined.

Lemma product_shaped_stored : Forall product_shaped [stored].
Proof. apply Forall_singleton, product_shaped_insert_id, krabs_keys. Qed.

(** X18 on a collection of one document. *)
Lemma stored_products_shaped_witness :
  Forall product_shaped (collection (world_of krabs [stored]))
  ∧ Forall product_shaped
      (collection (Index.post_product (request id1) up (world_of krabs [stored])).2)
  ∧ Forall product_shaped
      (collection (Index.put_product (request id1) up (world_of krabs [stored])).2)
  ∧ Forall product_shaped
      (collection (Index.delete_product (request id1) up (world_of krabs [stored])).2).
Proof.
  split; [exact product_shaped_stored|].
  exact (stored_products_shaped (request id1) up (world_of krabs [stored])
           product_shaped_stored).
Defined.

End MoreRuns.
